(** * MedConnect telemedicine backend: a shallow embedding of [backend/server.py]

    The service is a set of FastAPI route handlers over four MongoDB
    collections.  Every handler is embedded as a computation in a small
    monad [M] that threads the document store, reads the per-request
    oracles (identity verifier, [os.urandom], the UTC clock) and may raise
    a Python exception.  Collections are lists of documents in insertion
    order: [find_one] returns the first match, [insert_one] appends. *)

From Stdlib Require Import ZArith NArith List String Ascii.
From Stdlib Require QArith.
From stdpp Require Import base option list strings gmap.

Local Open Scope string_scope.

(** ** Python primitives used by the handlers *)

Module Py.

(** Truthiness of an [Optional[str]]: [None] and the empty string
    are falsy. *)
Definition truthy (o : option string) : bool :=
  match o with
  | Some s => negb (String.eqb s EmptyString)
  | None => false
  end.

(** [s.startswith(p)] *)
Definition startswith (s p : string) : bool := String.prefix p s.

(** [s.split(sep)] for a one-character separator. *)
Fixpoint split (sep : ascii) (s : string) : list string :=
  match s with
  | EmptyString => [EmptyString]
  | String c r =>
      if Ascii.eqb c sep then EmptyString :: split sep r
      else match split sep r with
           | [] => [String c EmptyString]
           | h :: t => String c h :: t
           end
  end.

(** [s.lower()] on ASCII letters, as used for header names. *)
Definition lower_ascii (c : ascii) : ascii :=
  let n := nat_of_ascii c in
  if (65 <=? n)%nat && (n <=? 90)%nat then ascii_of_nat (n + 32) else c.

Fixpoint lower (s : string) : string :=
  match s with
  | EmptyString => EmptyString
  | String c r => String (lower_ascii c) (lower r)
  end.

(** One lower-case hexadecimal digit. *)
Definition hex_digit (d : N) : ascii :=
  match d with
  | 0 => "0" | 1 => "1" | 2 => "2" | 3 => "3" | 4 => "4" | 5 => "5"
  | 6 => "6" | 7 => "7" | 8 => "8" | 9 => "9" | 10 => "a" | 11 => "b"
  | 12 => "c" | 13 => "d" | 14 => "e" | _ => "f"
  end%N%char.

(** The [k] low hexadecimal digits of [n], most significant first,
    in front of [acc]. *)
Fixpoint hex_low (k : nat) (n : N) (acc : string) : string :=
  match k with
  | O => acc
  | S k' => hex_low k' (n / 16)%N (String (hex_digit (n mod 16)%N) acc)
  end.

(** [uuid.UUID(bytes=os.urandom(16), version=4).int]: 128 random bits
    with the RFC 4122 variant and the version number forced. *)
Definition uuid4_int (random : N) : N :=
  let i := (random mod 2 ^ 128)%N in
  let i := N.ldiff i (N.shiftl 0xc000 48) in
  let i := N.lor i (N.shiftl 0x8000 48) in
  let i := N.ldiff i (N.shiftl 0xf000 64) in
  N.lor i (N.shiftl 4 76).

(** [str(u)] for a UUID with integer value [i]: the 32 hex digits of
    [i] grouped 8-4-4-4-12. *)
Definition uuid_str (i : N) : string :=
  hex_low 8 (N.shiftr i 96)
    (String "-" (hex_low 4 (N.shiftr i 80)
      (String "-" (hex_low 4 (N.shiftr i 64)
        (String "-" (hex_low 4 (N.shiftr i 48)
          (String "-" (hex_low 12 i EmptyString)))))))).

(** [timedelta(days=d)] in microseconds, the resolution of [datetime]. *)
Definition timedelta_days (d : Z) : Z := (d * 86400 * 1000000)%Z.

End Py.

(** ** Data model (the pydantic models) *)

(** [datetime] values are microseconds since the epoch. *)
Definition datetime := Z.

(** A Python [float] that is finite, as an exact rational. *)
Definition float := QArith_base.Q.

Record User := mkUser {
  u_id : string;
  u_email : string;
  u_name : string;
  u_picture : string;
  u_role : string;
  u_created_at : datetime }.

Record UserSession := mkUserSession {
  s_id : string;
  s_user_id : string;
  s_session_token : string;
  s_expires_at : datetime;
  s_created_at : datetime }.

Record DoctorProfile := mkDoctorProfile {
  d_id : string;
  d_user_id : string;
  d_specialization : string;
  d_experience_years : Z;
  d_license_number : string;
  d_bio : string;
  d_consultation_fee : float;
  d_available : bool;
  d_created_at : datetime }.

Record Appointment := mkAppointment {
  a_id : string;
  a_patient_id : string;
  a_doctor_id : string;
  a_scheduled_time : option datetime;
  a_status : string;
  a_type : string;
  a_video_room_id : option string;
  a_created_at : datetime }.

(** Request models *)

Record DoctorProfileCreate := mkDoctorProfileCreate {
  pc_specialization : string;
  pc_experience_years : Z;
  pc_license_number : string;
  pc_bio : string;
  pc_consultation_fee : float }.

Record AppointmentCreate := mkAppointmentCreate {
  ac_doctor_id : string;
  ac_scheduled_time : option datetime;
  ac_type : string }.

(** ** The document store *)

Module Mongo.
Section Collection.
Context {A : Type} (P : A → Prop) `{!∀ x, Decision (P x)}.

(** [find_one(query)]: the first matching document, if any. *)
Definition find_one (c : list A) : option A := snd <$> list_find P c.

(** [find(query).to_list(None)]: all matching documents, in order. *)
Definition find (c : list A) : list A := filter P c.

(** [delete_many(query)] *)
Definition delete_many (c : list A) : list A := filter (λ x, ¬ P x) c.

(** [update_one(query, {"$set": ...})]: rewrite the first match only;
    a query that matches nothing changes nothing. *)
Fixpoint update_one (f : A → A) (c : list A) : list A :=
  match c with
  | [] => []
  | x :: r => if decide (P x) then f x :: r else x :: update_one f r
  end.
End Collection.

(** [insert_one(doc)] *)
Definition insert_one {A : Type} (x : A) (c : list A) : list A := c ++ [x].
End Mongo.

Record DB := mkDB {
  users : list User;
  user_sessions : list UserSession;
  doctor_profiles : list DoctorProfile;
  appointments : list Appointment }.

Definition with_users (f : list User → list User) (d : DB) : DB :=
  mkDB (f (users d)) (user_sessions d) (doctor_profiles d) (appointments d).
Definition with_user_sessions (f : list UserSession → list UserSession) (d : DB) : DB :=
  mkDB (users d) (f (user_sessions d)) (doctor_profiles d) (appointments d).
Definition with_doctor_profiles (f : list DoctorProfile → list DoctorProfile) (d : DB) : DB :=
  mkDB (users d) (user_sessions d) (f (doctor_profiles d)) (appointments d).
Definition with_appointments (f : list Appointment → list Appointment) (d : DB) : DB :=
  mkDB (users d) (user_sessions d) (doctor_profiles d) (f (appointments d)).

Definition empty_db : DB := mkDB [] [] [] [].

(** ** Requests, the outside world, exceptions *)

(** JSON scalars, enough for the body of [POST /auth/session]. *)
Inductive JValue :=
| JNull
| JBool (b : bool)
| JNum (n : Z)
| JStr (s : string).

(** Truthiness of [body.get(key)]. *)
Definition json_truthy (v : option JValue) : bool :=
  match v with
  | None | Some JNull => false
  | Some (JBool b) => b
  | Some (JNum n) => negb (n =? 0)%Z
  | Some (JStr s) => negb (String.eqb s EmptyString)
  end.

(** What a handler reads of a request.  [headers] is keyed by lower-case
    name, the way the ASGI server delivers it; [json_body] is [None] when
    the body is not a JSON object. *)
Record Request := mkRequest {
  cookies : gmap string string;
  headers : gmap string string;
  json_body : option (gmap string JValue) }.

(** [request.headers.get(name)]: header names compare case-insensitively. *)
Definition headers_get (request : Request) (name : string) : option string :=
  headers request !! Py.lower name.

(** The reply of the external identity verifier to one call. *)
Inductive VerifierOutcome :=
| TransportError
| Responded (status_code : Z) (json : option (gmap string string)).

Inductive Exception :=
| HTTPException (status_code : Z) (detail : string)
| KeyError (key : string)
| IndexError
| TypeError
| JSONDecodeError
| RequestError.

(** The oracles one request may consult. *)
Record Env := mkEnv {
  identity_verifier : string → VerifierOutcome;
  urandom : nat → N;
  utc_clock : nat → datetime }.

Inductive CookieOp :=
| SetCookie (key value : string) (max_age : Z)
| DeleteCookie (key : string).

(** The state threaded through one request: the store, how many times the
    random source and the clock were consulted, and the cookie
    instructions put on the response object. *)
Record St := mkSt {
  db : DB;
  uuid_draws : nat;
  clock_reads : nat;
  response_cookies : list CookieOp }.

(** ** The handler monad *)

Definition M (A : Type) : Type := Env → St → (Exception + A) * St.

Definition ret {A} (a : A) : M A := λ _ s, (inr a, s).

Definition bind {A B} (k : A → M B) (m : M A) : M B :=
  λ e s, match m e s with
         | (inr a, s') => k a e s'
         | (inl x, s') => (inl x, s')
         end.

#[global] Instance M_ret : MRet M := @ret.
#[global] Instance M_bind : MBind M := @bind.

Definition raise {A} (x : Exception) : M A := λ _ s, (inl x, s).

(** A computation that touches nothing: its outcome is already known. *)
Definition lift {A} (r : Exception + A) : M A := λ _ s, (r, s).

(** [try: body except Exception as e: handler(e)] *)
Definition try_except {A} (body : M A) (handler : Exception → M A) : M A :=
  λ e s, match body e s with
         | (inr a, s') => (inr a, s')
         | (inl x, s') => handler x e s'
         end.

(** Reading and writing the store. *)
Definition query {A} (f : DB → A) : M A := λ _ s, (inr (f (db s)), s).

Definition execute (f : DB → DB) : M unit :=
  λ _ s, (inr tt, mkSt (f (db s)) (uuid_draws s) (clock_reads s) (response_cookies s)).

(** [str(uuid.uuid4())] *)
Definition uuid4 : M string :=
  λ e s, (inr (Py.uuid_str (Py.uuid4_int (urandom e (uuid_draws s)))),
          mkSt (db s) (S (uuid_draws s)) (clock_reads s) (response_cookies s)).

(** [datetime.now(timezone.utc)] *)
Definition utcnow : M datetime :=
  λ e s, (inr (utc_clock e (clock_reads s)),
          mkSt (db s) (uuid_draws s) (S (clock_reads s)) (response_cookies s)).

Definition cookie_op (c : CookieOp) : M unit :=
  λ _ s, (inr tt, mkSt (db s) (uuid_draws s) (clock_reads s) (response_cookies s ++ [c])).

(** [d[key]] on a dict of strings. *)
Definition getitem (d : gmap string string) (key : string) : M string :=
  match d !! key with
  | Some v => ret v
  | None => raise (KeyError key)
  end.

(** Running a handler for one request against a store. *)
Definition run {A} (m : M A) (e : Env) (d : DB) : (Exception + A) * DB :=
  let '(r, s) := m e (mkSt d 0 0 []) in (r, db s).

(** The status line the framework derives from a handler's outcome: an
    [HTTPException] carries its own code, any other exception is a 500,
    a normal return is a 200. *)
Definition status {A} (r : Exception + A) : Z :=
  match r with
  | inr _ => 200
  | inl (HTTPException c _) => c
  | inl _ => 500
  end%Z.

(** ** Authentication helpers *)

(** The first half of [get_current_user]: the [session_token] cookie
    first, then the [Authorization] header. *)
Definition session_token_of (request : Request) : Exception + option string :=
  let session_token := cookies request !! "session_token" in
  if Py.truthy session_token then inr session_token
  else
    let auth_header := headers_get request "Authorization" in
    match auth_header with
    | Some h =>
        if Py.truthy auth_header && Py.startswith h "Bearer " then
          match Py.split " " h !! 1%nat with
          | Some t => inr (Some t)
          | None => inl IndexError
          end
        else inr session_token
    | None => inr session_token
    end.

Definition get_current_user (request : Request) : M (option User) :=
  session_token ← lift (session_token_of request);
  match session_token with
  | Some token =>
      if Py.truthy session_token then
        now ← utcnow;
        session ← query (λ d,
          Mongo.find_one (λ s, s_session_token s = token ∧ (now < s_expires_at s)%Z)
                         (user_sessions d));
        match session with
        | None => ret None
        | Some session =>
            query (λ d, Mongo.find_one (λ u, u_id u = s_user_id session) (users d))
        end
      else ret None
  | None => ret None
  end.

Definition require_auth (request : Request) : M User :=
  user ← get_current_user request;
  match user with
  | None => raise (HTTPException 401 "Authentication required")
  | Some user => ret user
  end.

Definition require_doctor (request : Request) : M User :=
  user ← require_auth request;
  if decide (u_role user ≠ "doctor") then
    raise (HTTPException 403 "Doctor access required")
  else ret user.

(** ** Response bodies *)

(** The [{"name": ..., "picture": ...}] dict attached to a listing. *)
Record PersonInfo := mkPersonInfo {
  pi_name : string;
  pi_picture : string }.

(** The ["doctor"] dict attached to a patient's appointment. *)
Record DoctorInfo := mkDoctorInfo {
  di_name : string;
  di_picture : string;
  di_specialization : string }.

(** A profile document with its optional ["user"] key. *)
Record DoctorView := mkDoctorView {
  dv_profile : DoctorProfile;
  dv_user : option PersonInfo }.

(** An appointment document with its optional ["patient"] and
    ["doctor"] keys. *)
Record AppointmentView := mkAppointmentView {
  av_appointment : Appointment;
  av_patient : option PersonInfo;
  av_doctor : option DoctorInfo }.

Inductive Reply :=
| SessionReply (user : User) (success : bool)
| UserReply (user : User)
| SuccessReply (success : bool)
| ProfileCreatedReply (profile : DoctorProfile) (success : bool)
| DoctorsReply (doctors : list DoctorView)
| ProfileReply (profile : DoctorProfile)
| AppointmentCreatedReply (appointment : Appointment) (success : bool)
| AppointmentsReply (appointments : list AppointmentView)
| AppointmentReply (appointment : Appointment)
| StartReply (video_room_id : option string) (success : bool)
| MessageReply (message : string) (success : bool).

(** [for x in xs: ...] collecting what each iteration produces. *)
Fixpoint for_each {A B} (xs : list A) (body : A → M B) : M (list B) :=
  match xs with
  | [] => ret []
  | x :: r => y ← body x; ys ← for_each r body; ret (y :: ys)
  end.

(** [for x in xs: ...] run for its effects. *)
Fixpoint for_ {A} (xs : list A) (body : A → M unit) : M unit :=
  match xs with
  | [] => ret tt
  | x :: r => body x;; for_ r body
  end.

(** ** Authentication routes *)

(** [await request.json()] followed by attribute access on the result. *)
Definition request_json (request : Request) : M (gmap string JValue) :=
  match json_body request with
  | Some body => ret body
  | None => raise JSONDecodeError
  end.

(** [client.get(url, headers={"X-Session-ID": session_id})]: the header
    value must be a [str]; the call itself may fail in transport. *)
Definition get_session_data (session_id : option JValue)
  : M (Z * option (gmap string string)) :=
  match session_id with
  | Some (JStr sid) =>
      λ e s, match identity_verifier e sid with
             | TransportError => (inl RequestError, s)
             | Responded c j => (inr (c, j), s)
             end
  | _ => raise TypeError
  end.

(** [auth_response.json()] *)
Definition response_json (j : option (gmap string string))
  : M (gmap string string) :=
  match j with
  | Some d => ret d
  | None => raise JSONDecodeError
  end.

Definition process_session (request : Request) : M Reply :=
  try_except
    (body ← request_json request;
     let session_id := body !! "session_id" in
     if negb (json_truthy session_id) then
       raise (HTTPException 400 "Session ID required")
     else
       auth_response ← get_session_data session_id;
       if decide (auth_response.1 ≠ 200%Z) then
         raise (HTTPException 401 "Invalid session")
       else
         user_data ← response_json auth_response.2;
         email ← getitem user_data "email";
         existing_user ← query (λ d,
           Mongo.find_one (λ u, u_email u = email) (users d));
         user ←
           match existing_user with
           | None =>
               id ← uuid4;
               email ← getitem user_data "email";
               name ← getitem user_data "name";
               picture ← getitem user_data "picture";
               created_at ← utcnow;
               let user := mkUser id email name picture "patient" created_at in
               execute (with_users (Mongo.insert_one user));;
               ret user
           | Some u => ret u
           end;
         session_token ← getitem user_data "session_token";
         now ← utcnow;
         let expires_at := (now + Py.timedelta_days 7)%Z in
         execute (with_user_sessions
                    (Mongo.delete_many (λ s, s_user_id s = u_id user)));;
         id ← uuid4;
         created_at ← utcnow;
         let session :=
           mkUserSession id (u_id user) session_token expires_at created_at in
         execute (with_user_sessions (Mongo.insert_one session));;
         cookie_op (SetCookie "session_token" session_token (7 * 24 * 60 * 60));;
         ret (SessionReply user true))
    (λ e, raise (HTTPException 500 "Session processing failed")).

Definition get_current_user_info (user : User) : M Reply :=
  ret (UserReply user).

Definition logout (request : Request) : M Reply :=
  let session_token := cookies request !! "session_token" in
  (match session_token with
   | Some token =>
       if Py.truthy session_token then
         execute (with_user_sessions
                    (Mongo.delete_many (λ s, s_session_token s = token)))
       else ret tt
   | None => ret tt
   end);;
  cookie_op (DeleteCookie "session_token");;
  ret (SuccessReply true).

(** ** Doctor routes *)

Definition set_role (role : string) (u : User) : User :=
  mkUser (u_id u) (u_email u) (u_name u) (u_picture u) role (u_created_at u).

Definition set_available (available : bool) (p : DoctorProfile) : DoctorProfile :=
  mkDoctorProfile (d_id p) (d_user_id p) (d_specialization p)
    (d_experience_years p) (d_license_number p) (d_bio p)
    (d_consultation_fee p) available (d_created_at p).

Definition set_status (st : string) (a : Appointment) : Appointment :=
  mkAppointment (a_id a) (a_patient_id a) (a_doctor_id a) (a_scheduled_time a)
    st (a_type a) (a_video_room_id a) (a_created_at a).

Definition create_doctor_profile (profile_data : DoctorProfileCreate) (user : User)
  : M Reply :=
  execute (with_users
             (Mongo.update_one (λ u, u_id u = u_id user) (set_role "doctor")));;
  id ← uuid4;
  created_at ← utcnow;
  let profile :=
    mkDoctorProfile id (u_id user) (pc_specialization profile_data)
      (pc_experience_years profile_data) (pc_license_number profile_data)
      (pc_bio profile_data) (pc_consultation_fee profile_data) true created_at in
  execute (with_doctor_profiles (Mongo.insert_one profile));;
  ret (ProfileCreatedReply profile true).

Definition get_available_doctors : M Reply :=
  doctors ← query (λ d,
    Mongo.find (λ p, d_available p = true) (doctor_profiles d));
  doctors ← for_each doctors (λ doctor,
    user ← query (λ d,
      Mongo.find_one (λ u, u_id u = d_user_id doctor) (users d));
    ret (mkDoctorView doctor
           ((λ u, mkPersonInfo (u_name u) (u_picture u)) <$> user)));
  ret (DoctorsReply doctors).

Definition get_doctor_profile (user : User) : M Reply :=
  profile ← query (λ d,
    Mongo.find_one (λ p, d_user_id p = u_id user) (doctor_profiles d));
  match profile with
  | None => raise (HTTPException 404 "Doctor profile not found")
  | Some profile => ret (ProfileReply profile)
  end.

Definition update_availability (available : bool) (user : User) : M Reply :=
  execute (with_doctor_profiles
             (Mongo.update_one (λ p, d_user_id p = u_id user)
                               (set_available available)));;
  ret (SuccessReply true).

(** ** Appointment routes *)

Definition create_appointment (appointment_data : AppointmentCreate) (user : User)
  : M Reply :=
  doctor ← query (λ d,
    Mongo.find_one (λ p, d_id p = ac_doctor_id appointment_data ∧ d_available p = true)
                   (doctor_profiles d));
  match doctor with
  | None => raise (HTTPException 404 "Doctor not available")
  | Some _ =>
      video_room_id ← uuid4;
      id ← uuid4;
      created_at ← utcnow;
      let appointment :=
        mkAppointment id (u_id user) (ac_doctor_id appointment_data)
          (ac_scheduled_time appointment_data) "pending"
          (ac_type appointment_data) (Some video_room_id) created_at in
      execute (with_appointments (Mongo.insert_one appointment));;
      ret (AppointmentCreatedReply appointment true)
  end.

Definition get_user_appointments (user : User) : M Reply :=
  appointments ←
    (if decide (u_role user = "doctor") then
       appointments ← query (λ d,
         Mongo.find (λ a, a_doctor_id a = u_id user) (appointments d));
       for_each appointments (λ appointment,
         patient ← query (λ d,
           Mongo.find_one (λ u, u_id u = a_patient_id appointment) (users d));
         ret (mkAppointmentView appointment
                ((λ u, mkPersonInfo (u_name u) (u_picture u)) <$> patient)
                None))
     else
       appointments ← query (λ d,
         Mongo.find (λ a, a_patient_id a = u_id user) (appointments d));
       for_each appointments (λ appointment,
         doctor_profile ← query (λ d,
           Mongo.find_one (λ p, d_id p = a_doctor_id appointment)
                          (doctor_profiles d));
         match doctor_profile with
         | Some doctor_profile =>
             doctor_user ← query (λ d,
               Mongo.find_one (λ u, u_id u = d_user_id doctor_profile) (users d));
             ret (mkAppointmentView appointment None
                    ((λ u, mkDoctorInfo (u_name u) (u_picture u)
                             (d_specialization doctor_profile)) <$> doctor_user))
         | None => ret (mkAppointmentView appointment None None)
         end));
  ret (AppointmentsReply appointments).

Definition join_appointment (appointment_id : string) (user : User) : M Reply :=
  appointment ← query (λ d,
    Mongo.find_one (λ a, a_id a = appointment_id) (appointments d));
  match appointment with
  | None => raise (HTTPException 404 "Appointment not found")
  | Some appointment =>
      if decide (a_patient_id appointment ≠ u_id user
                 ∧ a_doctor_id appointment ≠ u_id user) then
        raise (HTTPException 403 "Access denied")
      else ret (AppointmentReply appointment)
  end.

Definition start_appointment (appointment_id : string) (user : User) : M Reply :=
  appointment ← query (λ d,
    Mongo.find_one (λ a, a_id a = appointment_id) (appointments d));
  match appointment with
  | None => raise (HTTPException 404 "Appointment not found")
  | Some appointment =>
      execute (with_appointments
                 (Mongo.update_one (λ a, a_id a = appointment_id)
                                   (set_status "active")));;
      ret (StartReply (a_video_room_id appointment) true)
  end.

(** ** Sample doctors *)

Record SampleDoctor := mkSampleDoctor {
  sd_email : string;
  sd_name : string;
  sd_picture : string;
  sd_specialization : string;
  sd_experience_years : Z;
  sd_license_number : string;
  sd_bio : string;
  sd_consultation_fee : float }.

Definition sample_doctors : list SampleDoctor :=
  [ mkSampleDoctor "dr.smith@medconnect.com" "Dr. Sarah Smith"
      "https://images.unsplash.com/photo-1559839734-2b71ea197ec2?w=150&h=150&fit=crop&crop=face"
      "General Medicine" 8 "MD12345"
      "Experienced family physician specializing in rural healthcare delivery."
      (QArith_base.Qmake 75 1);
    mkSampleDoctor "dr.johnson@medconnect.com" "Dr. Michael Johnson"
      "https://images.unsplash.com/photo-1612349317150-e413f6a5b16d?w=150&h=150&fit=crop&crop=face"
      "Cardiology" 12 "MD67890"
      "Cardiologist with expertise in remote heart monitoring and consultation."
      (QArith_base.Qmake 120 1);
    mkSampleDoctor "dr.wilson@medconnect.com" "Dr. Emily Wilson"
      "https://images.unsplash.com/photo-1594824804732-ca8db3ac9421?w=150&h=150&fit=crop&crop=face"
      "Pediatrics" 6 "MD11122"
      "Pediatrician dedicated to providing quality healthcare for children in underserved areas."
      (QArith_base.Qmake 90 1) ].

(** The body of the seeding loop for one entry of the table. *)
Definition init_sample_doctor (doctor_data : SampleDoctor) : M unit :=
  existing_user ← query (λ d,
    Mongo.find_one (λ u, u_email u = sd_email doctor_data) (users d));
  match existing_user with
  | None =>
      id ← uuid4;
      created_at ← utcnow;
      let user :=
        mkUser id (sd_email doctor_data) (sd_name doctor_data)
          (sd_picture doctor_data) "doctor" created_at in
      execute (with_users (Mongo.insert_one user));;
      id ← uuid4;
      created_at ← utcnow;
      let profile :=
        mkDoctorProfile id (u_id user) (sd_specialization doctor_data)
          (sd_experience_years doctor_data) (sd_license_number doctor_data)
          (sd_bio doctor_data) (sd_consultation_fee doctor_data) true created_at in
      execute (with_doctor_profiles (Mongo.insert_one profile))
  | Some _ => ret tt
  end.

Definition init_sample_doctors : M Reply :=
  for_ sample_doctors init_sample_doctor;;
  ret (MessageReply "Sample doctors initialized" true).

(** ** The router *)

(** [Depends(dep)]: the dependency runs on the request first and its
    result is handed to the route function. *)
Definition depends {A} (dep : Request → M User) (handler : User → M A)
  (request : Request) : M A :=
  user ← dep request; handler user.

(** A route together with the parameters the framework has already
    parsed out of the path, the query string and the body. *)
Inductive Endpoint :=
| POST_auth_session
| GET_auth_me
| POST_auth_logout
| POST_doctors_profile (profile_data : DoctorProfileCreate)
| GET_doctors
| GET_doctors_profile
| PUT_doctors_availability (available : bool)
| POST_appointments (appointment_data : AppointmentCreate)
| GET_appointments
| GET_appointments_join (appointment_id : string)
| POST_appointments_start (appointment_id : string)
| POST_admin_init_sample_doctors.

Definition route (ep : Endpoint) (request : Request) : M Reply :=
  match ep with
  | POST_auth_session => process_session request
  | GET_auth_me => depends require_auth get_current_user_info request
  | POST_auth_logout => logout request
  | POST_doctors_profile profile_data =>
      depends require_auth (create_doctor_profile profile_data) request
  | GET_doctors => get_available_doctors
  | GET_doctors_profile => depends require_doctor get_doctor_profile request
  | PUT_doctors_availability available =>
      depends require_doctor (update_availability available) request
  | POST_appointments appointment_data =>
      depends require_auth (create_appointment appointment_data) request
  | GET_appointments => depends require_auth get_user_appointments request
  | GET_appointments_join appointment_id =>
      depends require_auth (join_appointment appointment_id) request
  | POST_appointments_start appointment_id =>
      depends require_auth (start_appointment appointment_id) request
  | POST_admin_init_sample_doctors => init_sample_doctors
  end.

(** Routes declared with [Depends(require_auth)] or, through it,
    [Depends(require_doctor)]. *)
Definition auth_gated (ep : Endpoint) : bool :=
  match ep with
  | POST_auth_session | POST_auth_logout | GET_doctors
  | POST_admin_init_sample_doctors => false
  | _ => true
  end.

(** Routes declared with [Depends(require_doctor)]. *)
Definition doctor_only (ep : Endpoint) : bool :=
  match ep with
  | GET_doctors_profile | PUT_doctors_availability _ => true
  | _ => false
  end.

(** Serving one request: the status code, the reply if any, the store
    afterwards. *)
Definition serve (ep : Endpoint) (request : Request) (e : Env) (d : DB)
  : Z * option Reply * DB :=
  let '(r, d') := run (route ep request) e d in
  (status r, match r with inr v => Some v | inl _ => None end, d').

(** ** The enrichment of a listed appointment, as a function of the store *)

(** What the patient sees attached to an appointment. *)
Definition doctor_info (d : DB) (a : Appointment) : option DoctorInfo :=
  match Mongo.find_one (λ p, d_id p = a_doctor_id a) (doctor_profiles d) with
  | Some doctor_profile =>
      (λ u, mkDoctorInfo (u_name u) (u_picture u) (d_specialization doctor_profile))
        <$> Mongo.find_one (λ u, u_id u = d_user_id doctor_profile) (users d)
  | None => None
  end.

(** What the doctor sees attached to an appointment. *)
Definition patient_info (d : DB) (a : Appointment) : option PersonInfo :=
  (λ u, mkPersonInfo (u_name u) (u_picture u))
    <$> Mongo.find_one (λ u, u_id u = a_patient_id a) (users d).

(** ** The session a login hands out *)


(** ** Views and relations between stores, used to state properties *)

(** What the public listing attaches to a profile. *)
Definition owner_info (d : DB) (p : DoctorProfile) : option PersonInfo :=
  (λ u, mkPersonInfo (u_name u) (u_picture u))
    <$> Mongo.find_one (λ u, u_id u = d_user_id p) (users d).

(** Routes registered with [api_router.get]. *)
Definition is_get (ep : Endpoint) : bool :=
  match ep with
  | GET_auth_me | GET_doctors | GET_doctors_profile | GET_appointments
  | GET_appointments_join _ => true
  | _ => false
  end.

(** A user but for the role, a profile but for the availability flag, an
    appointment but for the status: the fields no [$set] in the file
    names. *)
Definition user_core (u : User) :=
  (u_id u, u_email u, u_name u, u_picture u, u_created_at u).

Definition profile_core (p : DoctorProfile) :=
  (d_id p, d_user_id p, d_specialization p, d_experience_years p,
   d_license_number p, d_bio p, d_consultation_fee p, d_created_at p).

Definition appointment_core (a : Appointment) :=
  (a_id a, a_patient_id a, a_doctor_id a, a_scheduled_time a, a_type a,
   a_video_room_id a, a_created_at a).

(** [keeps_documents d d']: every user, profile and appointment of [d] is
    still there in [d'], at the same place and with the same core; new
    documents come after. *)
Definition keeps_documents (d d' : DB) : Prop :=
  (user_core <$> users d) `prefix_of` (user_core <$> users d')
  ∧ (profile_core <$> doctor_profiles d)
      `prefix_of` (profile_core <$> doctor_profiles d')
  ∧ (appointment_core <$> appointments d)
      `prefix_of` (appointment_core <$> appointments d').

(** ** A concrete deployment, used to run the handlers on examples *)

Module Demo.

(** What the verifier hands back for a known external session. *)
Definition identity (email name token : string) : gmap string string :=
  {[ "email" := email; "name" := name;
     "picture" := "https://example.org/p.png"; "session_token" := token ]}.

Definition verifier (sid : string) : VerifierOutcome :=
  if decide (sid = "sid-alice") then
    Responded 200 (Some (identity "alice@example.org" "Alice" "tok-alice"))
  else if decide (sid = "sid-alice-again") then
    Responded 200 (Some (identity "alice@example.org" "Alice" "tok-alice-2"))
  else if decide (sid = "sid-bob") then
    Responded 200 (Some (identity "bob@example.org" "Bob" "tok-bob"))
  else if decide (sid = "sid-carol") then
    Responded 200 (Some (identity "carol@example.org" "Carol" "tok-carol"))
  else Responded 401 None.

(** Request number [seed]: its random bytes and its clock. *)
Definition env (seed : N) : Env :=
  mkEnv verifier (λ n, (16 * seed + N.of_nat n)%N)
        (λ n, (1000000 * Z.of_N seed + Z.of_nat n)%Z).

Definition login_request (sid : string) : Request :=
  mkRequest ∅ ∅ (Some {[ "session_id" := JStr sid ]}).

Definition bearer (token : string) : Request :=
  mkRequest ∅ {[ "authorization" := String.append "Bearer " token ]} None.

Definition with_cookie (token : string) : Request :=
  mkRequest {[ "session_token" := token ]} ∅ None.

Definition anonymous : Request := mkRequest ∅ ∅ None.

Definition store_after (ep : Endpoint) (request : Request) (seed : N) (d : DB) : DB :=
  (serve ep request (env seed) d).2.

(** Alice and Bob log in; Bob claims a doctor profile; Alice books
    Bob; Carol logs in. *)
Definition db_alice : DB :=
  store_after POST_auth_session (login_request "sid-alice") 1 empty_db.

Definition db_bob : DB :=
  store_after POST_auth_session (login_request "sid-bob") 2 db_alice.

Definition bob_profile_data : DoctorProfileCreate :=
  mkDoctorProfileCreate "Dermatology" 5 "MD00001" "Skin." (QArith_base.Qmake 50 1).

Definition db_profile : DB :=
  store_after (POST_doctors_profile bob_profile_data) (bearer "tok-bob") 3 db_bob.

Definition bob_profile_id : string := "00000000-0000-4000-8000-000000000030".

Definition db_booked : DB :=
  store_after (POST_appointments (mkAppointmentCreate bob_profile_id None "instant"))
              (bearer "tok-alice") 4 db_profile.

Definition db_carol : DB :=
  store_after POST_auth_session (login_request "sid-carol") 5 db_booked.

Definition booked_appointment_id : string := "00000000-0000-4000-8000-000000000041".

(** Bob then switches his availability off. *)
Definition db_unavailable : DB :=
  store_after (PUT_doctors_availability false) (bearer "tok-bob") 8 db_carol.

(** A store in which Dave has the doctor role but no profile document. *)
Definition dave : User :=
  mkUser "00000000-0000-4000-8000-0000000000d0" "dave@example.org" "Dave"
         "https://example.org/d.png" "doctor" 0%Z.

Definition db_dave : DB :=
  mkDB [dave]
       [mkUserSession "00000000-0000-4000-8000-0000000000d1" (u_id dave)
                      "tok-dave" 604800000000%Z 0%Z]
       [] [].


(** The user documents of the three, as they stand in [db_carol]. *)
Definition alice : User :=
  mkUser "00000000-0000-4000-8000-000000000010" "alice@example.org" "Alice"
         "https://example.org/p.png" "patient" 1000000%Z.

Definition bob : User :=
  mkUser "00000000-0000-4000-8000-000000000020" "bob@example.org" "Bob"
         "https://example.org/p.png" "doctor" 2000000%Z.

Definition carol : User :=
  mkUser "00000000-0000-4000-8000-000000000050" "carol@example.org" "Carol"
         "https://example.org/p.png" "patient" 5000000%Z.

End Demo.

(** * Properties *)

(** Membership in a store that has been computed. *)
Ltac in_store H :=
  vm_compute in H;
  repeat (apply elem_of_cons in H as [->|H]);
  try (apply elem_of_nil in H; destruct H).

(** ** The store operations *)

Section MongoFacts.
Context {A : Type} (P : A → Prop) `{Pdec : !∀ x, Decision (P x)}.

Lemma find_one_None (c : list A) :
  Mongo.find_one P c = None ↔ ∀ x, x ∈ c → ¬ P x.
Proof.
  unfold Mongo.find_one. rewrite fmap_None, list_find_None, Forall_forall.
  reflexivity.
Qed.

Lemma find_one_Some (c : list A) (x : A) :
  Mongo.find_one P c = Some x → x ∈ c ∧ P x.
Proof.
  unfold Mongo.find_one. intros H.
  apply fmap_Some in H as [[i y] [Hf ->]].
  apply list_find_Some in Hf as (Hl & HP & _).
  split; [eapply list_elem_of_lookup_2; exact Hl | exact HP].
Qed.

Lemma find_one_is_Some (c : list A) (x : A) :
  x ∈ c → P x → ∃ y, Mongo.find_one P c = Some y.
Proof.
  intros Hin HP. destruct (Mongo.find_one P c) as [y|] eqn:E; [eauto|].
  destruct (proj1 (find_one_None c) E x Hin HP).
Qed.

Lemma find_one_app_l (c1 c2 : list A) (x : A) :
  Mongo.find_one P c1 = Some x → Mongo.find_one P (c1 ++ c2) = Some x.
Proof.
  unfold Mongo.find_one. intros H.
  apply fmap_Some in H as [[i y] [Hf ->]].
  rewrite (list_find_app_l _ _ _ _ _ Hf). reflexivity.
Qed.

Lemma find_one_app_r (c1 c2 : list A) :
  Mongo.find_one P c1 = None →
  Mongo.find_one P (c1 ++ c2) = Mongo.find_one P c2.
Proof.
  unfold Mongo.find_one. intros H. apply fmap_None in H.
  rewrite (list_find_app_r _ _ _ H).
  destruct (list_find P c2) as [[i y]|]; reflexivity.
Qed.

Lemma update_one_no_match (f : A → A) (c : list A) :
  (∀ x, x ∈ c → ¬ P x) → Mongo.update_one P f c = c.
Proof.
  induction c as [|x r IH]; intros H; simpl; [reflexivity|].
  destruct (decide (P x)) as [HP|_].
  - destruct (H x); [left | exact HP].
  - f_equal. apply IH. intros y Hy. apply H. right. exact Hy.
Qed.

End MongoFacts.

(** ** The request gate *)

(** [get_current_user] step by step: the token, one reading of the clock,
    the live session bearing the token, the user it points at. *)
Lemma get_current_user_unfold (request : Request) (e : Env) (s : St) :
  get_current_user request e s =
  match session_token_of request with
  | inl x => (inl x, s)
  | inr session_token =>
      match session_token with
      | Some token =>
          if Py.truthy session_token then
            let s' := mkSt (db s) (uuid_draws s) (S (clock_reads s))
                           (response_cookies s) in
            match Mongo.find_one
                    (λ x, s_session_token x = token
                          ∧ (utc_clock e (clock_reads s) < s_expires_at x)%Z)
                    (user_sessions (db s)) with
            | None => (inr None, s')
            | Some session =>
                (inr (Mongo.find_one (λ u, u_id u = s_user_id session)
                                     (users (db s))), s')
            end
          else (inr None, s)
      | None => (inr None, s)
      end
  end.
Proof.
  unfold get_current_user, mbind, M_bind, bind, lift.
  destruct (session_token_of request) as [x|[token|]]; try reflexivity.
  destruct (Py.truthy (Some token)); [|reflexivity].
  unfold utcnow, query, mret, M_ret, ret. simpl.
  destruct (Mongo.find_one _ _); reflexivity.
Qed.

(** [split] always yields a first piece, and a second one as soon as the
    separator occurs. *)
Lemma split_cons (sep : ascii) (s : string) :
  ∃ h t, Py.split sep s = h :: t.
Proof.
  induction s as [|c r IH]; simpl; [eauto|].
  destruct (Ascii.eqb c sep); [eauto|].
  destruct IH as (h & t & ->). eauto.
Qed.

Lemma split_bearer (h : string) :
  Py.startswith h "Bearer " = true → ∃ t, Py.split " " h !! 1%nat = Some t.
Proof.
  unfold Py.startswith. intros Hp.
  repeat (destruct h as [|? h]; simpl in Hp; [discriminate|];
          match type of Hp with
          | match ?b with left _ => _ | right _ => _ end = true =>
              destruct b as [<-|]; [|discriminate]
          end).
  simpl. destruct (split_cons " " h) as (x & t & ->). simpl. eauto.
Qed.

(** The token extraction never raises: the [startswith] test guards the
    index taken after [split]. *)
Lemma session_token_of_total (request : Request) :
  ∃ o, session_token_of request = inr o.
Proof.
  unfold session_token_of.
  destruct (Py.truthy (cookies request !! "session_token")); [eauto|].
  destruct (headers_get request "Authorization") as [h|]; [|eauto].
  destruct (Py.truthy (Some h) && Py.startswith h "Bearer ") eqn:E; [|eauto].
  apply andb_true_iff in E as [_ E].
  destruct (split_bearer h E) as [t ->]. eauto.
Qed.

(** The gate only reads: whatever it answers, the store, the random
    source and the response cookies are as before. *)
Lemma get_current_user_frame (request : Request) (e : Env) (s : St) :
  ∃ r k, get_current_user request e s
         = (inr r, mkSt (db s) (uuid_draws s) (k + clock_reads s) (response_cookies s)).
Proof.
  rewrite get_current_user_unfold.
  destruct (session_token_of_total request) as [o ->].
  destruct s as [d u c rc]; simpl.
  destruct o as [token|]; [|by exists None, 0%nat].
  destruct (Py.truthy (Some token)); [|by exists None, 0%nat].
  destruct (Mongo.find_one _ _).
  - by eexists _, 1%nat.
  - by exists None, 1%nat.
Qed.

Lemma require_auth_unfold (request : Request) (e : Env) (s : St) :
  require_auth request e s =
  match get_current_user request e s with
  | (inr (Some user), s') => (inr user, s')
  | (inr None, s') => (inl (HTTPException 401 "Authentication required"), s')
  | (inl x, s') => (inl x, s')
  end.
Proof.
  unfold require_auth, mbind, M_bind, bind.
  destruct (get_current_user request e s) as [[x|[user|]] s']; reflexivity.
Qed.

Lemma require_doctor_unfold (request : Request) (e : Env) (s : St) :
  require_doctor request e s =
  match require_auth request e s with
  | (inr user, s') =>
      if decide (u_role user ≠ "doctor") then
        (inl (HTTPException 403 "Doctor access required"), s')
      else (inr user, s')
  | (inl x, s') => (inl x, s')
  end.
Proof.
  unfold require_doctor, mbind, M_bind, bind.
  destruct (require_auth request e s) as [[x|user] s']; [reflexivity|].
  destruct (decide (u_role user ≠ "doctor")); reflexivity.
Qed.

Lemma require_auth_frame (request : Request) (e : Env) (s : St) :
  ∃ r k, require_auth request e s
         = (r, mkSt (db s) (uuid_draws s) (k + clock_reads s) (response_cookies s)).
Proof.
  rewrite require_auth_unfold.
  destruct (get_current_user_frame request e s) as (r & k & ->).
  destruct r; eauto.
Qed.

(** A gated route is its dependency followed by the route function. *)
Lemma gated_route (ep : Endpoint) (request : Request) :
  auth_gated ep = true →
  ∃ handler,
    route ep request
    = depends (if doctor_only ep then require_doctor else require_auth)
              handler request.
Proof. destruct ep; simpl; intros; try discriminate; eauto. Qed.

(** When the gate refuses, the framework answers with the gate's
    exception and the route function never runs. *)
Lemma serve_refused (ep : Endpoint) (request : Request) (e : Env) (d : DB)
  (c : Z) (detail : string) :
  auth_gated ep = true →
  (run (require_auth request) e d).1 = inl (HTTPException c detail) →
  serve ep request e d = (c, None, d).
Proof.
  intros Hg Hr. destruct (gated_route ep request Hg) as [h Hroute].
  unfold serve, run in *. rewrite Hroute.
  unfold depends, mbind, M_bind, bind.
  destruct (require_auth_frame request e (mkSt d 0 0 [])) as (r & k & Ha).
  destruct (doctor_only ep).
  - rewrite require_doctor_unfold, Ha. rewrite Ha in Hr. simpl in Hr. subst r.
    reflexivity.
  - rewrite Ha. rewrite Ha in Hr. simpl in Hr. subst r. reflexivity.
Qed.

Lemma serve_wrong_role (ep : Endpoint) (request : Request) (e : Env) (d : DB)
  (user : User) :
  doctor_only ep = true →
  (run (require_auth request) e d).1 = inr user →
  u_role user ≠ "doctor" →
  serve ep request e d = (403%Z, None, d).
Proof.
  intros Hd Hr Hrole.
  assert (auth_gated ep = true) as Hg by (destruct ep; try discriminate; reflexivity).
  destruct (gated_route ep request Hg) as [h Hroute].
  unfold serve, run in *. rewrite Hroute, Hd.
  unfold depends, mbind, M_bind, bind.
  rewrite require_doctor_unfold.
  destruct (require_auth_frame request e (mkSt d 0 0 [])) as (r & k & Ha).
  rewrite Ha. rewrite Ha in Hr. simpl in Hr. subst r.
  destruct (decide (u_role user ≠ "doctor")); [reflexivity|contradiction].
Qed.

(** The text after [Bearer ] up to the next blank is the token. *)
Lemma split_bearer_token (t tok : string) (rest : list string) :
  Py.split " " t = tok :: rest →
  Py.split " " (String.append "Bearer " t) !! 1%nat = Some tok.
Proof.
  intros Ht. simpl. change (String.append EmptyString t) with t.
  rewrite Ht. reflexivity.
Qed.

Lemma startswith_bearer (t : string) :
  Py.startswith (String.append "Bearer " t) "Bearer " = true.
Proof. unfold Py.startswith. simpl. destruct t; reflexivity. Qed.

(** The gate refuses whenever the credential is empty, finds no live
    session, or finds one whose user is gone. *)
Lemma serve_unresolved (ep : Endpoint) (request : Request) (e : Env) (d : DB)
  (o : option string) :
  auth_gated ep = true →
  session_token_of request = inr o →
  (match o with
   | Some token =>
       Py.truthy o = true →
       match Mongo.find_one
               (λ s, s_session_token s = token
                     ∧ (utc_clock e 0 < s_expires_at s)%Z)
               (user_sessions d) with
       | Some session =>
           Mongo.find_one (λ u, u_id u = s_user_id session) (users d) = None
       | None => True
       end
   | None => True
   end) →
  serve ep request e d = (401%Z, None, d).
Proof.
  intros Hg Ho Hcase.
  apply serve_refused with (detail := "Authentication required"); [exact Hg|].
  unfold run. rewrite require_auth_unfold, get_current_user_unfold, Ho. simpl.
  destruct o as [token|]; [|reflexivity].
  destruct (Py.truthy (Some token)); [|reflexivity].
  specialize (Hcase eq_refl).
  destruct (Mongo.find_one _ (user_sessions d)) as [session|]; [|reflexivity].
  rewrite Hcase. reflexivity.
Qed.

(** No session bearing the token is still live: the gate refuses. *)
Lemma serve_no_live_session (ep : Endpoint) (request : Request) (e : Env)
  (d : DB) (token : string) :
  auth_gated ep = true →
  session_token_of request = inr (Some token) →
  (∀ s, s ∈ user_sessions d → s_session_token s = token →
        (s_expires_at s ≤ utc_clock e 0)%Z) →
  serve ep request e d = (401%Z, None, d).
Proof.
  intros Hg Ho Hexp. apply (serve_unresolved _ _ _ _ _ Hg Ho). intros _.
  destruct (Mongo.find_one _ (user_sessions d)) as [session|] eqn:E; [|exact I].
  apply find_one_Some in E as (Hin & Htok & Hlt).
  specialize (Hexp session Hin Htok). lia.
Qed.

(** C7. A gated route answers 401 when the request carries no credential,
    when no session bearing the token has an expiry strictly after the
    current time (unknown and expired tokens alike), and when the matching
    session points at a user that does not exist; a doctor-only route
    answers 403 to a valid credential of a user whose role is not doctor.
    In each case the store is untouched.  The credential is the
    [session_token] cookie when it is non-empty; otherwise it is the text
    that follows [Bearer ] in the [Authorization] header. *)
Theorem C7_gate_status (ep : Endpoint) (request : Request) (e : Env) (d : DB) :
  auth_gated ep = true →
  (∀ o, session_token_of request = inr o → Py.truthy o = false →
        serve ep request e d = (401%Z, None, d))
  ∧ (∀ token, session_token_of request = inr (Some token) →
        (∀ s, s ∈ user_sessions d → s_session_token s = token →
              (s_expires_at s ≤ utc_clock e 0)%Z) →
        serve ep request e d = (401%Z, None, d))
  ∧ (∀ token session, session_token_of request = inr (Some token) →
        Mongo.find_one (λ s, s_session_token s = token
                             ∧ (utc_clock e 0 < s_expires_at s)%Z)
                       (user_sessions d) = Some session →
        (∀ u, u ∈ users d → u_id u ≠ s_user_id session) →
        serve ep request e d = (401%Z, None, d))
  ∧ (∀ user, doctor_only ep = true →
        (run (require_auth request) e d).1 = inr user →
        u_role user ≠ "doctor" →
        serve ep request e d = (403%Z, None, d))
  ∧ (∀ c, cookies request !! "session_token" = Some c → c ≠ EmptyString →
        session_token_of request = inr (Some c))
  ∧ (∀ t tok rest, Py.truthy (cookies request !! "session_token") = false →
        headers_get request "Authorization" = Some (String.append "Bearer " t) →
        Py.split " " t = tok :: rest →
        session_token_of request = inr (Some tok)).
Proof.
  intros Hg.
  pose proof (λ o, serve_unresolved ep request e d o Hg) as Hrefuse.
  repeat split.
  - intros o Ho Hfalsy. apply (Hrefuse o Ho).
    destruct o; [|exact I]. intros Ht. congruence.
  - intros token. apply serve_no_live_session. exact Hg.
  - intros token session Ho Hfind Horphan. apply (Hrefuse _ Ho). intros _.
    rewrite Hfind. apply find_one_None. intros u Hu. apply Horphan. exact Hu.
  - intros user. apply serve_wrong_role.
  - intros c Hc Hne. unfold session_token_of. rewrite Hc. simpl.
    destruct (String.eqb c EmptyString) eqn:E; [|reflexivity].
    apply String.eqb_eq in E. contradiction.
  - intros t tok rest Hcookie Hhead Hsplit. unfold session_token_of.
    rewrite Hcookie, Hhead. rewrite startswith_bearer.
    rewrite (split_bearer_token t tok rest Hsplit). reflexivity.
Qed.

(** C7 at work: an anonymous request, an unknown token, a patient on a
    doctor-only route, and a cookie that wins over the header. *)
Lemma C7_gate_status_witness :
  serve GET_auth_me Demo.anonymous (Demo.env 6) Demo.db_carol
    = (401%Z, None, Demo.db_carol)
  ∧ serve GET_appointments (Demo.bearer "tok-nobody") (Demo.env 6) Demo.db_carol
    = (401%Z, None, Demo.db_carol)
  ∧ serve GET_doctors_profile (Demo.bearer "tok-alice") (Demo.env 6) Demo.db_carol
    = (403%Z, None, Demo.db_carol)
  ∧ session_token_of
      (mkRequest {[ "session_token" := "tok-alice" ]}
                 {[ "authorization" := "Bearer tok-bob" ]} None)
    = inr (Some "tok-alice").
Proof.
  split; [|split; [|split]].
  - apply (proj1 (C7_gate_status GET_auth_me Demo.anonymous (Demo.env 6)
                    Demo.db_carol eq_refl) None); reflexivity.
  - apply (proj1 (proj2 (C7_gate_status GET_appointments (Demo.bearer "tok-nobody")
                           (Demo.env 6) Demo.db_carol eq_refl)) "tok-nobody").
    + reflexivity.
    + intros s Hs Htok. vm_compute in Hs.
      repeat (apply elem_of_cons in Hs as [->|Hs]; [discriminate Htok|]).
      apply elem_of_nil in Hs. destruct Hs.
  - apply (proj1 (proj2 (proj2 (proj2
             (C7_gate_status GET_doctors_profile (Demo.bearer "tok-alice")
                (Demo.env 6) Demo.db_carol eq_refl))))
             (mkUser "00000000-0000-4000-8000-000000000010" "alice@example.org"
                     "Alice" "https://example.org/p.png" "patient" 1000000%Z)).
    + reflexivity.
    + vm_compute. reflexivity.
    + discriminate.
  - apply (proj1 (proj2 (proj2 (proj2 (proj2
             (C7_gate_status GET_auth_me
                (mkRequest {[ "session_token" := "tok-alice" ]}
                           {[ "authorization" := "Bearer tok-bob" ]} None)
                (Demo.env 6) Demo.db_carol eq_refl)))))
             "tok-alice"); [reflexivity|discriminate].
Defined.

(** ** Routes behind the gate *)

(** A request the gate lets through has read the clock once and changed
    nothing else. *)
Lemma require_auth_grants (request : Request) (e : Env) (d : DB) (user : User) :
  (run (require_auth request) e d).1 = inr user →
  require_auth request e (mkSt d 0 0 []) = (inr user, mkSt d 0 1 []).
Proof.
  unfold run. rewrite require_auth_unfold, get_current_user_unfold.
  destruct (session_token_of request) as [x|[token|]];
    [simpl; discriminate| |simpl; discriminate].
  destruct (Py.truthy (Some token)); [|simpl; discriminate].
  cbn [db clock_reads uuid_draws response_cookies].
  destruct (Mongo.find_one _ (user_sessions d)) as [session|];
    [|simpl; discriminate].
  destruct (Mongo.find_one _ (users d)) as [u|]; simpl; [|discriminate].
  intros [= ->]. reflexivity.
Qed.

Lemma require_doctor_grants (request : Request) (e : Env) (d : DB) (user : User) :
  (run (require_doctor request) e d).1 = inr user →
  require_doctor request e (mkSt d 0 0 []) = (inr user, mkSt d 0 1 [])
  ∧ u_role user = "doctor".
Proof.
  unfold run. rewrite require_doctor_unfold.
  destruct (require_auth request e (mkSt d 0 0 [])) as [[x|u] s'] eqn:E;
    simpl; [discriminate|].
  pose proof (require_auth_grants request e d u) as Hg.
  unfold run in Hg. rewrite E in Hg. specialize (Hg eq_refl).
  injection Hg as <-.
  destruct (decide (u_role u ≠ "doctor")) as [|Hrole]; simpl; [discriminate|].
  intros [= ->]. split; [reflexivity|].
  destruct (decide (u_role user = "doctor")); [assumption|contradiction].
Qed.



(** C5. A booking by an authenticated caller whose [doctor_id] names no
    profile, or only a profile that is not available, is answered 404 and
    leaves the store as it was: no appointment is created.  Both cases are
    the one condition the handler tests: no profile with that id has
    [available] set. *)
Theorem C5_booking_refused (request : Request) (e : Env) (d : DB) (user : User)
  (appointment_data : AppointmentCreate) :
  (run (require_auth request) e d).1 = inr user →
  (∀ p, p ∈ doctor_profiles d → d_id p = ac_doctor_id appointment_data →
        d_available p = false) →
  serve (POST_appointments appointment_data) request e d = (404%Z, None, d).
Proof.
  intros Hauth Hnone.
  unfold serve, run, route, depends, mbind, M_bind, bind.
  rewrite (require_auth_grants _ _ _ _ Hauth).
  unfold create_appointment, mbind, M_bind, bind, query. simpl.
  destruct (Mongo.find_one _ (doctor_profiles d)) as [p|] eqn:E.
  - apply find_one_Some in E as (Hin & Hid & Hav).
    rewrite (Hnone p Hin Hid) in Hav. discriminate.
  - reflexivity.
Qed.


(** C10. For a doctor who has no profile, toggling availability answers
    success and leaves every collection as it was, whereas fetching the
    own profile answers 404. *)
Theorem C10_availability_without_profile (request : Request) (e : Env) (d : DB)
  (user : User) (available : bool) :
  (run (require_doctor request) e d).1 = inr user →
  (∀ p, p ∈ doctor_profiles d → d_user_id p ≠ u_id user) →
  serve (PUT_doctors_availability available) request e d
    = (200%Z, Some (SuccessReply true), d)
  ∧ serve GET_doctors_profile request e d = (404%Z, None, d).
Proof.
  intros Hauth Hnone.
  destruct (require_doctor_grants _ _ _ _ Hauth) as [Hgate _].
  split.
  - unfold serve, run, route, depends, mbind, M_bind, bind. rewrite Hgate.
    unfold update_availability, mbind, M_bind, bind, execute. simpl.
    unfold with_doctor_profiles.
    rewrite update_one_no_match by exact Hnone.
    destruct d; reflexivity.
  - unfold serve, run, route, depends, mbind, M_bind, bind. rewrite Hgate.
    unfold get_doctor_profile, mbind, M_bind, bind, query. simpl.
    destruct (Mongo.find_one _ (doctor_profiles d)) as [p|] eqn:E;
      [|reflexivity].
    apply find_one_Some in E as (Hin & Huid).
    destruct (Hnone p Hin Huid).
Qed.

(** C5 at work: Bob has switched his availability off and Alice tries to
    book him. *)
Lemma C5_booking_refused_witness :
  serve (POST_appointments (mkAppointmentCreate Demo.bob_profile_id None "instant"))
        (Demo.bearer "tok-alice") (Demo.env 9) Demo.db_unavailable
  = (404%Z, None, Demo.db_unavailable).
Proof.
  eapply C5_booking_refused.
  - vm_compute. reflexivity.
  - intros p Hp Hid. in_store Hp. reflexivity.
Defined.


(** C10 at work: Dave is a doctor without a profile document. *)
Lemma C10_availability_without_profile_witness :
  serve (PUT_doctors_availability false) (Demo.bearer "tok-dave") (Demo.env 1)
        Demo.db_dave
    = (200%Z, Some (SuccessReply true), Demo.db_dave)
  ∧ serve GET_doctors_profile (Demo.bearer "tok-dave") (Demo.env 1) Demo.db_dave
    = (404%Z, None, Demo.db_dave).
Proof.
  apply (C10_availability_without_profile (Demo.bearer "tok-dave") (Demo.env 1)
           Demo.db_dave Demo.dave false).
  - vm_compute. reflexivity.
  - intros p Hp. in_store Hp.
Defined.

(** ** Logout *)

Lemma filter_all {A} (P : A → Prop) `{Pdec : !∀ x, Decision (P x)} (l : list A) :
  (∀ x, x ∈ l → P x) → filter P l = l.
Proof.
  induction l as [|x r IH]; intros Hall; [reflexivity|].
  rewrite filter_cons_True by (apply Hall; left).
  f_equal. apply IH. intros y Hy. apply Hall. right. exact Hy.
Qed.

(** C9. Logout looks at the [session_token] cookie only.  Without a
    non-empty cookie, whatever the [Authorization] header carries, it
    answers success and leaves the store as it was, so a session presented
    in the header alone still resolves to the same user afterwards.  With
    a non-empty cookie it answers success and the sessions left are
    exactly those whose token differs from the cookie, which is the whole
    collection when none matches. *)
Theorem C9_logout_cookie_only (request : Request) (e : Env) (d : DB) :
  (Py.truthy (cookies request !! "session_token") = false →
     serve POST_auth_logout request e d = (200%Z, Some (SuccessReply true), d)
     ∧ ∀ e' user,
         (run (require_auth request) e' d).1 = inr user →
         (run (require_auth request) e'
              (serve POST_auth_logout request e d).2).1 = inr user)
  ∧ (∀ token, cookies request !! "session_token" = Some token →
       token ≠ EmptyString →
       serve POST_auth_logout request e d
       = (200%Z, Some (SuccessReply true),
          mkDB (users d)
               (filter (λ s, s_session_token s ≠ token) (user_sessions d))
               (doctor_profiles d) (appointments d))
       ∧ ((∀ s, s ∈ user_sessions d → s_session_token s ≠ token) →
          serve POST_auth_logout request e d
          = (200%Z, Some (SuccessReply true), d))).
Proof.
  split.
  - intros Hfalsy.
    assert (serve POST_auth_logout request e d
            = (200%Z, Some (SuccessReply true), d)) as Hserve.
    { unfold serve, run, route, logout, mbind, M_bind, bind.
      destruct (cookies request !! "session_token") as [token|];
        [rewrite Hfalsy|]; reflexivity. }
    split; [exact Hserve|]. intros e' user Hauth. rewrite Hserve. exact Hauth.
  - intros token Hcookie Hne.
    assert (Py.truthy (Some token) = true) as Htruthy.
    { simpl. destruct (String.eqb token EmptyString) eqn:E; [|reflexivity].
      apply String.eqb_eq in E. contradiction. }
    assert (serve POST_auth_logout request e d
            = (200%Z, Some (SuccessReply true),
               mkDB (users d)
                    (filter (λ s, s_session_token s ≠ token) (user_sessions d))
                    (doctor_profiles d) (appointments d))) as Hserve.
    { unfold serve, run, route, logout, mbind, M_bind, bind.
      rewrite Hcookie, Htruthy. reflexivity. }
    split; [exact Hserve|]. intros Hnone. rewrite Hserve.
    replace (filter (λ s, s_session_token s ≠ token) (user_sessions d))
      with (user_sessions d); [destruct d; reflexivity|].
    symmetry. apply filter_all. exact Hnone.
Qed.

(** C9 at work: Bob presents his token in the header only and stays
    logged in; Alice presents hers in the cookie and her session goes. *)
Lemma C9_logout_cookie_only_witness :
  serve POST_auth_logout (Demo.bearer "tok-bob") (Demo.env 6) Demo.db_carol
    = (200%Z, Some (SuccessReply true), Demo.db_carol)
  ∧ serve POST_auth_logout (Demo.with_cookie "tok-alice") (Demo.env 6) Demo.db_carol
    = (200%Z, Some (SuccessReply true),
       mkDB (users Demo.db_carol)
            (filter (λ s, s_session_token s ≠ "tok-alice")
                    (user_sessions Demo.db_carol))
            (doctor_profiles Demo.db_carol) (appointments Demo.db_carol)).
Proof.
  split.
  - apply (proj1 (C9_logout_cookie_only (Demo.bearer "tok-bob") (Demo.env 6)
                    Demo.db_carol)).
    reflexivity.
  - refine (proj1 (proj2 (C9_logout_cookie_only (Demo.with_cookie "tok-alice")
                             (Demo.env 6) Demo.db_carol) "tok-alice" _ _)).
    + vm_compute. reflexivity.
    + discriminate.
Defined.

(** ** Login: how failures surface *)

(** Whatever happens inside [process_session], the broad [except] turns
    it into a 500: the route never answers 400 or 401. *)
Lemma process_session_status (request : Request) (e : Env) (s : St) :
  status (process_session request e s).1 = 200%Z
  ∨ (process_session request e s).1
    = inl (HTTPException 500 "Session processing failed").
Proof.
  unfold process_session, try_except.
  match goal with |- context [match ?body e s with _ => _ end] =>
    destruct (body e s) as [[x|r] s'] end; [right|left]; reflexivity.
Qed.

Lemma process_session_missing_id (request : Request) (e : Env) (d : DB)
  (body : gmap string JValue) :
  json_body request = Some body →
  json_truthy (body !! "session_id") = false →
  serve POST_auth_session request e d = (500%Z, None, d).
Proof.
  intros Hbody Hfalsy.
  unfold serve, run, route, process_session, try_except, request_json,
    mbind, M_bind, bind.
  rewrite Hbody. simpl. rewrite Hfalsy. reflexivity.
Qed.

Lemma process_session_verifier_refuses (request : Request) (e : Env) (d : DB)
  (body : gmap string JValue) (sid : string) (c : Z)
  (j : option (gmap string string)) :
  json_body request = Some body →
  body !! "session_id" = Some (JStr sid) →
  sid ≠ EmptyString →
  identity_verifier e sid = Responded c j →
  c ≠ 200%Z →
  serve POST_auth_session request e d = (500%Z, None, d).
Proof.
  intros Hbody Hsid Hne Hver Hc.
  unfold serve, run, route, process_session, try_except, request_json,
    mbind, M_bind, bind.
  rewrite Hbody. simpl. rewrite Hsid. simpl.
  destruct (String.eqb sid EmptyString) eqn:E;
    [apply String.eqb_eq in E; contradiction|]. simpl.
  rewrite Hver. simpl.
  destruct (decide (c ≠ 200%Z)); [reflexivity|contradiction].
Qed.

(** C1, as the code runs.  A login whose body has no session id, and a
    login whose session id the verifier rejects with a 401, are both
    answered 500: the 400 and the 401 raised inside the [try] are caught
    by its own [except Exception] and replaced. *)
Theorem C1_login_errors_answered_500 :
  serve POST_auth_session (mkRequest ∅ ∅ (Some ∅)) (Demo.env 1) empty_db
    = (500%Z, None, empty_db)
  ∧ Demo.verifier "sid-unknown" = Responded 401 None
  ∧ serve POST_auth_session (Demo.login_request "sid-unknown") (Demo.env 1) empty_db
    = (500%Z, None, empty_db).
Proof.
  split; [|split].
  - apply (process_session_missing_id _ _ _ ∅); reflexivity.
  - reflexivity.
  - apply (process_session_verifier_refuses _ _ _
             {[ "session_id" := JStr "sid-unknown" ]} "sid-unknown" 401 None);
      try reflexivity; discriminate.
Qed.

(** ** Listing and joining appointments *)

(** A loop whose body only reads is a map. *)
Lemma for_each_pure {A B} (xs : list A) (body : A → M B) (f : A → B)
  (e : Env) (s : St) :
  (∀ x, x ∈ xs → body x e s = (inr (f x), s)) →
  for_each xs body e s = (inr (f <$> xs), s).
Proof.
  induction xs as [|x r IH]; intros Hbody; [reflexivity|].
  simpl. unfold mbind, M_bind, bind.
  rewrite (Hbody x) by left.
  rewrite IH by (intros y Hy; apply Hbody; right; exact Hy).
  reflexivity.
Qed.

(** The listing, branch by branch: a doctor gets the appointments whose
    [doctor_id] equals the caller's own user id; anyone else gets those
    whose [patient_id] equals it. *)
Lemma get_user_appointments_spec (user : User) (e : Env) (s : St) :
  get_user_appointments user e s =
  (inr (AppointmentsReply
          (if decide (u_role user = "doctor") then
             (λ a, mkAppointmentView a (patient_info (db s) a) None)
               <$> filter (λ a, a_doctor_id a = u_id user) (appointments (db s))
           else
             (λ a, mkAppointmentView a None (doctor_info (db s) a))
               <$> filter (λ a, a_patient_id a = u_id user) (appointments (db s)))),
   s).
Proof.
  unfold get_user_appointments, mbind, M_bind, bind.
  destruct (decide (u_role user = "doctor")).
  - unfold query at 1. unfold Mongo.find.
    erewrite for_each_pure; [reflexivity|].
    intros a _. reflexivity.
  - unfold query at 1. unfold Mongo.find.
    erewrite for_each_pure; [reflexivity|].
    intros a _. unfold doctor_info, query, mbind, M_bind, bind.
    destruct (Mongo.find_one _ (doctor_profiles (db s))); reflexivity.
Qed.

Lemma serve_listing (request : Request) (e : Env) (d : DB) (user : User) :
  (run (require_auth request) e d).1 = inr user →
  serve GET_appointments request e d
  = (200%Z,
     Some (AppointmentsReply
             (if decide (u_role user = "doctor") then
                (λ a, mkAppointmentView a (patient_info d a) None)
                  <$> filter (λ a, a_doctor_id a = u_id user) (appointments d)
              else
                (λ a, mkAppointmentView a None (doctor_info d a))
                  <$> filter (λ a, a_patient_id a = u_id user) (appointments d))),
     d).
Proof.
  intros Hauth.
  unfold serve, run, route, depends, mbind, M_bind, bind.
  rewrite (require_auth_grants _ _ _ _ Hauth).
  rewrite get_user_appointments_spec. reflexivity.
Qed.

(** Joining, case by case: the caller is compared with the appointment's
    [patient_id] and with its [doctor_id], both against the caller's user
    id. *)
Lemma serve_join (request : Request) (e : Env) (d : DB) (user : User)
  (appointment_id : string) :
  (run (require_auth request) e d).1 = inr user →
  serve (GET_appointments_join appointment_id) request e d
  = match Mongo.find_one (λ a, a_id a = appointment_id) (appointments d) with
    | None => (404%Z, None, d)
    | Some appointment =>
        if decide (a_patient_id appointment ≠ u_id user
                   ∧ a_doctor_id appointment ≠ u_id user)
        then (403%Z, None, d)
        else (200%Z, Some (AppointmentReply appointment), d)
    end.
Proof.
  intros Hauth.
  unfold serve, run, route, depends, mbind, M_bind, bind.
  rewrite (require_auth_grants _ _ _ _ Hauth).
  unfold join_appointment, mbind, M_bind, bind, query. simpl.
  destruct (Mongo.find_one _ (appointments d)) as [a|]; [|reflexivity].
  destruct (decide _); reflexivity.
Qed.

(** C2, as the code runs.  Bob is a doctor, his profile is the one Alice's
    appointment names in [doctor_id], and yet his listing is empty: the
    doctor branch compares [doctor_id] with the caller's user id, never
    with the id of the caller's profile.  Alice, a patient, does get the
    appointment. *)
Theorem C2_doctor_listing_is_empty :
  (run (require_auth (Demo.bearer "tok-bob")) (Demo.env 6) Demo.db_carol).1
    = inr Demo.bob
  ∧ u_role Demo.bob = "doctor"
  ∧ (∃ p a, p ∈ doctor_profiles Demo.db_carol ∧ d_user_id p = u_id Demo.bob
            ∧ a ∈ appointments Demo.db_carol ∧ a_doctor_id a = d_id p)
  ∧ serve GET_appointments (Demo.bearer "tok-bob") (Demo.env 6) Demo.db_carol
    = (200%Z, Some (AppointmentsReply []), Demo.db_carol)
  ∧ ∃ a, appointments Demo.db_carol = [a]
         ∧ serve GET_appointments (Demo.bearer "tok-alice") (Demo.env 6) Demo.db_carol
           = (200%Z,
              Some (AppointmentsReply
                      [mkAppointmentView a None
                         (Some (mkDoctorInfo "Bob" "https://example.org/p.png"
                                             "Dermatology"))]),
              Demo.db_carol).
Proof.
  split; [vm_compute; reflexivity|].
  split; [reflexivity|].
  split.
  { eexists _, _. split; [vm_compute; left|]. split; [reflexivity|].
    split; [vm_compute; left|]. reflexivity. }
  split.
  - rewrite (serve_listing _ _ _ Demo.bob) by (vm_compute; reflexivity).
    vm_compute. reflexivity.
  - eexists. split; [vm_compute; reflexivity|].
    rewrite (serve_listing _ _ _ Demo.alice) by (vm_compute; reflexivity).
    vm_compute. reflexivity.
Qed.

(** C3, as the code runs.  Bob owns the profile that the appointment names
    in [doctor_id], and joining it is answered 403: the check compares
    [doctor_id] with the caller's user id.  The patient joins, a third
    user is refused, an unknown id is a 404. *)
Theorem C3_doctor_cannot_join :
  (∃ p a, p ∈ doctor_profiles Demo.db_carol ∧ d_user_id p = u_id Demo.bob
          ∧ a ∈ appointments Demo.db_carol ∧ a_doctor_id a = d_id p
          ∧ a_id a = Demo.booked_appointment_id)
  ∧ (run (require_auth (Demo.bearer "tok-bob")) (Demo.env 6) Demo.db_carol).1
    = inr Demo.bob
  ∧ serve (GET_appointments_join Demo.booked_appointment_id)
          (Demo.bearer "tok-bob") (Demo.env 6) Demo.db_carol
    = (403%Z, None, Demo.db_carol)
  ∧ (∃ a, serve (GET_appointments_join Demo.booked_appointment_id)
                (Demo.bearer "tok-alice") (Demo.env 6) Demo.db_carol
          = (200%Z, Some (AppointmentReply a), Demo.db_carol))
  ∧ serve (GET_appointments_join Demo.booked_appointment_id)
          (Demo.bearer "tok-carol") (Demo.env 6) Demo.db_carol
    = (403%Z, None, Demo.db_carol)
  ∧ serve (GET_appointments_join "no-such-appointment")
          (Demo.bearer "tok-carol") (Demo.env 6) Demo.db_carol
    = (404%Z, None, Demo.db_carol).
Proof.
  split.
  { eexists _, _. split; [vm_compute; left|]. split; [reflexivity|].
    split; [vm_compute; left|]. split; reflexivity. }
  split; [vm_compute; reflexivity|].
  split; [|split; [|split]].
  - rewrite (serve_join _ _ _ Demo.bob) by (vm_compute; reflexivity).
    vm_compute. reflexivity.
  - eexists.
    rewrite (serve_join _ _ _ Demo.alice) by (vm_compute; reflexivity).
    vm_compute. reflexivity.
  - rewrite (serve_join _ _ _ Demo.carol) by (vm_compute; reflexivity).
    vm_compute. reflexivity.
  - rewrite (serve_join _ _ _ Demo.carol) by (vm_compute; reflexivity).
    vm_compute. reflexivity.
Qed.

(** ** Login: one session per user *)





(** A login does succeed as soon as the body carries a non-empty session
    id that the verifier accepts with the four fields. *)
Lemma process_session_succeeds (request : Request) (e : Env) (d : DB)
  (body : gmap string JValue) (sid : string) (data : gmap string string)
  (email name picture token : string) :
  json_body request = Some body →
  body !! "session_id" = Some (JStr sid) →
  sid ≠ EmptyString →
  identity_verifier e sid = Responded 200 (Some data) →
  data !! "email" = Some email →
  data !! "name" = Some name →
  data !! "picture" = Some picture →
  data !! "session_token" = Some token →
  ∃ user d',
    run (process_session request) e d = (inr (SessionReply user true), d').
Proof.
  intros Hbody Hsid Hne Hver Hemail Hname Hpic Htok.
  unfold run, process_session, try_except, request_json, get_session_data,
    response_json, getitem.
  unfold mbind, M_bind, bind.
  rewrite Hbody. cbn [mret M_ret ret]. rewrite Hsid. cbn [json_truthy].
  destruct (String.eqb sid EmptyString) eqn:E;
    [apply String.eqb_eq in E; contradiction|].
  cbn [negb]. rewrite Hver. cbn [fst snd].
  destruct (decide (200%Z ≠ 200%Z)) as [Hc|_]; [destruct Hc; reflexivity|].
  cbn [ret]. rewrite Hemail. cbn [ret query db].
  destruct (Mongo.find_one _ (users d)) as [u|].
  - cbn [ret]. rewrite Htok. simpl. eauto.
  - cbn [uuid4 ret]. rewrite Hname, Hpic. rewrite Htok. simpl. eauto.
Qed.


(** ** Seeding the sample doctors *)

(** One turn of the loop when the address is already taken: nothing. *)
Lemma init_sample_doctor_existing (doctor_data : SampleDoctor) (e : Env) (s : St)
  (u : User) :
  u ∈ users (db s) →
  u_email u = sd_email doctor_data →
  init_sample_doctor doctor_data e s = (inr tt, s).
Proof.
  intros Hin Hemail.
  unfold init_sample_doctor, mbind, M_bind, bind, query.
  destruct (find_one_is_Some (λ v, u_email v = sd_email doctor_data)
              (users (db s)) u Hin Hemail) as [v ->].
  reflexivity.
Qed.

(** One turn of the loop when the address is free: one user and one
    profile, tied together, are appended. *)
Lemma init_sample_doctor_new (doctor_data : SampleDoctor) (e : Env) (s : St) :
  (∀ v, v ∈ users (db s) → u_email v ≠ sd_email doctor_data) →
  ∃ user profile,
    init_sample_doctor doctor_data e s
    = (inr tt,
       mkSt (mkDB (users (db s) ++ [user]) (user_sessions (db s))
                  (doctor_profiles (db s) ++ [profile]) (appointments (db s)))
            (2 + uuid_draws s) (2 + clock_reads s) (response_cookies s))
    ∧ u_email user = sd_email doctor_data
    ∧ u_role user = "doctor"
    ∧ d_user_id profile = u_id user.
Proof.
  intros Hfree.
  unfold init_sample_doctor, mbind, M_bind, bind, query.
  rewrite (proj2 (find_one_None (λ v, u_email v = sd_email doctor_data)
                    (users (db s))) Hfree).
  eexists _, _. split; [reflexivity|]. repeat split.
Qed.

(** The loop over any table: what it appends, and that afterwards every
    address of the table is taken. *)
Lemma seeding_loop (l : list SampleDoctor) (e : Env) (s : St) :
  ∃ s' new_users new_profiles,
    for_ l init_sample_doctor e s = (inr tt, s')
    ∧ db s' = mkDB (users (db s) ++ new_users) (user_sessions (db s))
                   (doctor_profiles (db s) ++ new_profiles)
                   (appointments (db s))
    ∧ d_user_id <$> new_profiles = u_id <$> new_users
    ∧ NoDup (u_email <$> new_users)
    ∧ (∀ u, u ∈ new_users →
            u_role u = "doctor"
            ∧ (∃ sd, sd ∈ l ∧ u_email u = sd_email sd)
            ∧ ∀ v, v ∈ users (db s) → u_email v ≠ u_email u)
    ∧ (∀ sd, sd ∈ l → ∃ u, u ∈ users (db s') ∧ u_email u = sd_email sd).
Proof.
  revert s. induction l as [|sd r IH]; intros s.
  - exists s, [], []. simpl. rewrite !app_nil_r.
    split; [reflexivity|].
    split; [destruct s as [[] ? ? ?]; reflexivity|].
    split; [reflexivity|].
    split; [constructor|].
    split; intros x Hx; apply elem_of_nil in Hx; destruct Hx.
  - cbn [for_]. unfold mbind, M_bind, bind.
    destruct (Mongo.find_one (λ v, u_email v = sd_email sd) (users (db s)))
      as [u|] eqn:Efind.
    + (* the address is taken *)
      apply find_one_Some in Efind as [Hin Hemail].
      rewrite (init_sample_doctor_existing sd e s u Hin Hemail).
      destruct (IH s) as (s' & nu & np & Hrun & Hdb & Hlink & Hnd & Hnew & Hall).
      exists s', nu, np.
      split; [exact Hrun|]. split; [exact Hdb|]. split; [exact Hlink|].
      split; [exact Hnd|]. split.
      * intros w Hw. destruct (Hnew w Hw) as (Hr & (sd' & Hsd' & He) & Hfresh).
        split; [exact Hr|]. split; [|exact Hfresh].
        exists sd'. split; [right; exact Hsd'|exact He].
      * intros sd' Hsd'. apply elem_of_cons in Hsd' as [->|Hsd'].
        -- exists u. split; [|exact Hemail].
           rewrite Hdb. simpl. apply elem_of_app. left. exact Hin.
        -- apply Hall. exact Hsd'.
    + (* the address is free *)
      pose proof (proj1 (find_one_None _ _) Efind) as Hfree.
      destruct (init_sample_doctor_new sd e s Hfree)
        as (user & profile & -> & Hemail & Hrole & Hlink0).
      match goal with |- context [for_ r init_sample_doctor e ?s1] =>
        destruct (IH s1) as (s' & nu & np & Hrun & Hdb & Hlink & Hnd & Hnew & Hall)
      end.
      cbn [db users user_sessions doctor_profiles appointments] in Hdb, Hnew.
      exists s', (user :: nu), (profile :: np).
      rewrite Hrun. split; [reflexivity|].
      split; [rewrite Hdb; cbn [users user_sessions doctor_profiles appointments];
              rewrite <- !app_assoc; reflexivity|].
      split; [cbn [fmap list_fmap]; f_equal; assumption|].
      split.
      { cbn [fmap list_fmap]. constructor; [|exact Hnd].
        intros Hdup. apply list_elem_of_fmap in Hdup as (w & Hw & Hin).
        destruct (Hnew w Hin) as (_ & _ & Hfresh).
        apply (Hfresh user); [apply elem_of_app; right; left|].
        exact Hw. }
      split.
      { intros w Hw. apply elem_of_cons in Hw as [->|Hw].
        - split; [exact Hrole|]. split.
          + exists sd. split; [left|exact Hemail].
          + intros v Hv. rewrite Hemail. apply Hfree. exact Hv.
        - destruct (Hnew w Hw) as (Hr & (sd' & Hsd' & He) & Hfresh).
          split; [exact Hr|]. split.
          + exists sd'. split; [right; exact Hsd'|exact He].
          + intros v Hv. apply Hfresh. apply elem_of_app. left. exact Hv. }
      intros sd' Hsd'. apply elem_of_cons in Hsd' as [->|Hsd'].
      * exists user. split; [|exact Hemail].
        rewrite Hdb. cbn [users]. rewrite <- app_assoc.
        apply elem_of_app. right. left.
      * apply Hall. exact Hsd'.
Qed.

(** Once every address of the table is taken, the loop changes nothing. *)
Lemma seeding_loop_settled (l : list SampleDoctor) (e : Env) (s : St) :
  (∀ sd, sd ∈ l → ∃ u, u ∈ users (db s) ∧ u_email u = sd_email sd) →
  for_ l init_sample_doctor e s = (inr tt, s).
Proof.
  induction l as [|sd r IH]; intros Hall; [reflexivity|].
  cbn [for_]. unfold mbind, M_bind, bind.
  destruct (Hall sd) as (u & Hin & Hemail); [left|].
  rewrite (init_sample_doctor_existing sd e s u Hin Hemail).
  apply IH. intros sd' Hsd'. apply Hall. right. exact Hsd'.
Qed.

(** C8. Seeding is idempotent.  From any store, a first run answers
    success and appends some users and as many profiles, one per new
    user, none for an address that already had a user and no address
    twice; afterwards every sample address has a user.  A second run,
    whatever its random bytes and clock, answers success and leaves the
    store exactly as the first run left it. *)
Theorem C8_seeding_idempotent (r1 r2 : Request) (e1 e2 : Env) (d : DB) :
  ∃ d1 new_users new_profiles,
    serve POST_admin_init_sample_doctors r1 e1 d
    = (200%Z, Some (MessageReply "Sample doctors initialized" true), d1)
    ∧ serve POST_admin_init_sample_doctors r2 e2 d1
      = (200%Z, Some (MessageReply "Sample doctors initialized" true), d1)
    ∧ d1 = mkDB (users d ++ new_users) (user_sessions d)
                (doctor_profiles d ++ new_profiles) (appointments d)
    ∧ d_user_id <$> new_profiles = u_id <$> new_users
    ∧ NoDup (u_email <$> new_users)
    ∧ (∀ u, u ∈ new_users →
            u_role u = "doctor"
            ∧ (∃ sd, sd ∈ sample_doctors ∧ u_email u = sd_email sd)
            ∧ ∀ v, v ∈ users d → u_email v ≠ u_email u)
    ∧ (∀ sd, sd ∈ sample_doctors →
             ∃ u, u ∈ users d1 ∧ u_email u = sd_email sd).
Proof.
  destruct (seeding_loop sample_doctors e1 (mkSt d 0 0 []))
    as (s' & nu & np & Hrun & Hdb & Hlink & Hnd & Hnew & Hall).
  cbn [db] in Hdb, Hnew.
  exists (db s'), nu, np.
  split.
  { unfold serve, run, route, init_sample_doctors, mbind, M_bind, bind.
    rewrite Hrun. reflexivity. }
  split.
  { unfold serve, run, route, init_sample_doctors, mbind, M_bind, bind.
    rewrite seeding_loop_settled; [reflexivity|]. exact Hall. }
  split; [exact Hdb|]. split; [exact Hlink|]. split; [exact Hnd|].
  split; [exact Hnew|exact Hall].
Qed.

(** * Further properties of the handlers *)

(** ** Routes that only read *)

Lemma get_available_doctors_spec (e : Env) (s : St) :
  get_available_doctors e s
  = (inr (DoctorsReply
            ((λ p, mkDoctorView p (owner_info (db s) p))
               <$> filter (λ p, d_available p = true) (doctor_profiles (db s)))),
     s).
Proof.
  unfold get_available_doctors, mbind, M_bind, bind.
  unfold query at 1. unfold Mongo.find.
  erewrite for_each_pure; [reflexivity|].
  intros p _. reflexivity.
Qed.

(** A route behind a dependency leaves the store alone as soon as its
    route function does. *)
Lemma depends_read_only (doctor : bool) (handler : User → M Reply)
  (request : Request) (e : Env) (d : DB) :
  (∀ u s, db (handler u e s).2 = db s) →
  (run (depends (if doctor then require_doctor else require_auth) handler request)
       e d).2 = d.
Proof.
  intros Hh. unfold run, depends, mbind, M_bind, bind.
  destruct (require_auth_frame request e (mkSt d 0 0 [])) as (r & k & Ha).
  destruct doctor.
  - rewrite require_doctor_unfold, Ha.
    destruct r as [x|u]; [reflexivity|].
    destruct (decide (u_role u ≠ "doctor")); [reflexivity|].
    match goal with |- context [handler u e ?s] =>
      specialize (Hh u s); destruct (handler u e s) as [r' s'] end.
    exact Hh.
  - rewrite Ha. destruct r as [x|u]; [reflexivity|].
    match goal with |- context [handler u e ?s] =>
      specialize (Hh u s); destruct (handler u e s) as [r' s'] end.
    exact Hh.
Qed.

(** X1. No [GET] route writes: whatever the request, the credential and
    the outcome, the store after the call is the store before it. *)
Theorem get_routes_never_write (ep : Endpoint) (request : Request) (e : Env)
  (d : DB) :
  is_get ep = true → (serve ep request e d).2 = d.
Proof.
  intros Hget.
  assert ((run (route ep request) e d).2 = d) as Hrun.
  { destruct ep; try discriminate Hget; cbn [route].
    - apply (depends_read_only false). reflexivity.
    - unfold run. rewrite get_available_doctors_spec. reflexivity.
    - apply (depends_read_only true). intros u s.
      unfold get_doctor_profile, mbind, M_bind, bind, query.
      destruct (Mongo.find_one _ _); reflexivity.
    - apply (depends_read_only false). intros u s.
      rewrite get_user_appointments_spec. reflexivity.
    - apply (depends_read_only false). intros u s.
      unfold join_appointment, mbind, M_bind, bind, query.
      destruct (Mongo.find_one _ _) as [a|]; [|reflexivity].
      destruct (decide _); reflexivity. }
  unfold serve. destruct (run (route ep request) e d) as [r d']. exact Hrun.
Qed.

Lemma get_routes_never_write_witness :
  (serve (GET_appointments_join Demo.booked_appointment_id)
         (Demo.bearer "tok-alice") (Demo.env 6) Demo.db_carol).2
  = Demo.db_carol.
Proof. apply get_routes_never_write. reflexivity. Defined.

(** X2. The public listing needs no credential and shows exactly the
    profiles whose [available] flag is set, in store order, each with the
    name and picture of the first user bearing its [user_id] when there is
    one. *)
Theorem doctors_listing_is_available_profiles (request : Request) (e : Env)
  (d : DB) :
  ∃ doctors,
    serve GET_doctors request e d = (200%Z, Some (DoctorsReply doctors), d)
    ∧ dv_profile <$> doctors
      = filter (λ p, d_available p = true) (doctor_profiles d)
    ∧ (∀ v, v ∈ doctors → d_available (dv_profile v) = true
                          ∧ dv_user v = owner_info d (dv_profile v))
    ∧ (∀ p, p ∈ doctor_profiles d → d_available p = true →
            mkDoctorView p (owner_info d p) ∈ doctors).
Proof.
  eexists. split.
  { unfold serve, run. cbn [route]. rewrite get_available_doctors_spec.
    reflexivity. }
  cbn [db]. split; [|split].
  - rewrite <- list_fmap_compose. apply list_fmap_id.
  - intros v Hv. apply list_elem_of_fmap in Hv as (p & -> & Hp).
    apply list_elem_of_filter in Hp as [Hav _]. split; [exact Hav|reflexivity].
  - intros p Hp Hav. apply list_elem_of_fmap. exists p. split; [reflexivity|].
    apply list_elem_of_filter. split; assumption.
Qed.

(** ** Credentials *)

(** The gate lets a request through as the first user whose id the first
    live session bearing the token points at. *)
Lemma require_auth_resolves (request : Request) (e : Env) (d : DB)
  (token : string) (session : UserSession) (user : User) :
  session_token_of request = inr (Some token) →
  token ≠ EmptyString →
  Mongo.find_one (λ s, s_session_token s = token
                       ∧ (utc_clock e 0 < s_expires_at s)%Z)
                 (user_sessions d) = Some session →
  Mongo.find_one (λ u, u_id u = s_user_id session) (users d) = Some user →
  (run (require_auth request) e d).1 = inr user.
Proof.
  intros Htoken Hne Hsession Huser.
  unfold run. rewrite require_auth_unfold, get_current_user_unfold, Htoken.
  assert (Py.truthy (Some token) = true) as ->.
  { simpl. destruct (String.eqb token EmptyString) eqn:E; [|reflexivity].
    apply String.eqb_eq in E. contradiction. }
  cbn [db clock_reads]. rewrite Hsession, Huser. reflexivity.
Qed.

Lemma serve_auth_me (request : Request) (e : Env) (d : DB) (user : User) :
  (run (require_auth request) e d).1 = inr user →
  serve GET_auth_me request e d = (200%Z, Some (UserReply user), d).
Proof.
  intros Hauth. unfold serve, run, route, depends, mbind, M_bind, bind.
  rewrite (require_auth_grants _ _ _ _ Hauth). reflexivity.
Qed.

(** X3. [GET /auth/me] answers with the user document that the first
    live session bearing the presented token points at: the session must
    expire strictly after the current time, and the role plays no part. *)
Theorem auth_me_returns_session_user (request : Request) (e : Env) (d : DB)
  (token : string) (session : UserSession) (user : User) :
  session_token_of request = inr (Some token) →
  token ≠ EmptyString →
  Mongo.find_one (λ s, s_session_token s = token
                       ∧ (utc_clock e 0 < s_expires_at s)%Z)
                 (user_sessions d) = Some session →
  Mongo.find_one (λ u, u_id u = s_user_id session) (users d) = Some user →
  serve GET_auth_me request e d = (200%Z, Some (UserReply user), d).
Proof.
  intros Htoken Hne Hsession Huser. apply serve_auth_me.
  exact (require_auth_resolves _ _ _ _ _ _ Htoken Hne Hsession Huser).
Qed.

Lemma auth_me_returns_session_user_witness :
  serve GET_auth_me (Demo.with_cookie "tok-bob") (Demo.env 6) Demo.db_carol
  = (200%Z, Some (UserReply Demo.bob), Demo.db_carol).
Proof.
  eapply (auth_me_returns_session_user _ _ _ "tok-bob").
  - vm_compute. reflexivity.
  - discriminate.
  - vm_compute. reflexivity.
  - vm_compute. reflexivity.
Defined.

(** Without a usable cookie, a header that does not start with the exact
    text [Bearer ] yields no credential. *)
Lemma session_token_of_other_scheme (request : Request) (h : string) :
  Py.truthy (cookies request !! "session_token") = false →
  headers_get request "Authorization" = Some h →
  Py.startswith h "Bearer " = false →
  session_token_of request = inr (cookies request !! "session_token").
Proof.
  intros Hcookie Hhead Hprefix. unfold session_token_of.
  rewrite Hcookie, Hhead, Hprefix, andb_false_r. reflexivity.
Qed.

(** X4. The edges of credential extraction, on every gated route and
    every store.  A non-empty cookie that no live session bears is refused
    with 401 whatever the [Authorization] header holds: the header is a
    fallback for a missing cookie, not for a stale one.  Without a cookie,
    a header that does not start with the exact text [Bearer ] (another
    scheme, or [bearer] in lower case) is refused, and so is the header
    [Bearer ] followed by nothing or by a blank. *)
Theorem credential_edges (ep : Endpoint) (request : Request) (e : Env) (d : DB) :
  auth_gated ep = true →
  (∀ c, cookies request !! "session_token" = Some c → c ≠ EmptyString →
        (∀ s, s ∈ user_sessions d → s_session_token s = c →
              (s_expires_at s ≤ utc_clock e 0)%Z) →
        serve ep request e d = (401%Z, None, d))
  ∧ (∀ h, Py.truthy (cookies request !! "session_token") = false →
          headers_get request "Authorization" = Some h →
          Py.startswith h "Bearer " = false →
          serve ep request e d = (401%Z, None, d))
  ∧ (∀ t, Py.truthy (cookies request !! "session_token") = false →
          headers_get request "Authorization"
          = Some (String.append "Bearer " t) →
          (t = EmptyString ∨ ∃ t', t = String " " t') →
          serve ep request e d = (401%Z, None, d)).
Proof.
  intros Hg. split; [|split].
  - intros c Hc Hne Hstale.
    apply (serve_no_live_session ep request e d c Hg); [|exact Hstale].
    unfold session_token_of. rewrite Hc. simpl.
    destruct (String.eqb c EmptyString) eqn:E; [|reflexivity].
    apply String.eqb_eq in E. contradiction.
  - intros h Hcookie Hhead Hprefix.
    apply (serve_unresolved ep request e d _ Hg
             (session_token_of_other_scheme request h Hcookie Hhead Hprefix)).
    destruct (cookies request !! "session_token"); [|exact I].
    intros Ht. congruence.
  - intros t Hcookie Hhead Hempty.
    assert (session_token_of request = inr (Some EmptyString)) as Htoken.
    { unfold session_token_of. rewrite Hcookie, Hhead, startswith_bearer.
      destruct Hempty as [->|[t' ->]]; [reflexivity|].
      rewrite (split_bearer_token _ EmptyString (Py.split " " t'));
        reflexivity. }
    apply (serve_unresolved ep request e d _ Hg Htoken).
    intros Ht. discriminate Ht.
Qed.

Lemma credential_edges_witness :
  serve GET_auth_me
        (mkRequest {[ "session_token" := "tok-stale" ]}
                   {[ "authorization" := "Bearer tok-bob" ]} None)
        (Demo.env 6) Demo.db_carol
    = (401%Z, None, Demo.db_carol)
  ∧ serve GET_auth_me
          (mkRequest ∅ {[ "authorization" := "bearer tok-bob" ]} None)
          (Demo.env 6) Demo.db_carol
    = (401%Z, None, Demo.db_carol)
  ∧ serve GET_auth_me (Demo.bearer EmptyString) (Demo.env 6) Demo.db_carol
    = (401%Z, None, Demo.db_carol).
Proof.
  split; [|split].
  - refine (proj1 (credential_edges GET_auth_me _ (Demo.env 6) Demo.db_carol
                     eq_refl) "tok-stale" _ _ _).
    + vm_compute. reflexivity.
    + discriminate.
    + intros s Hs Htok. in_store Hs; discriminate Htok.
  - refine (proj1 (proj2 (credential_edges GET_auth_me _ (Demo.env 6)
                            Demo.db_carol eq_refl)) "bearer tok-bob" _ _ _);
      vm_compute; reflexivity.
  - refine (proj2 (proj2 (credential_edges GET_auth_me _ (Demo.env 6)
                            Demo.db_carol eq_refl)) EmptyString _ _ _).
    + vm_compute. reflexivity.
    + vm_compute. reflexivity.
    + left. reflexivity.
Defined.

(** X5. Logout revokes: after a logout that carried a non-empty
    [session_token] cookie, every gated route refuses with 401 any request
    presenting that token, by cookie or by header, at any later time. *)
Theorem logout_revokes_token (request : Request) (e : Env) (d : DB)
  (token : string) :
  cookies request !! "session_token" = Some token →
  token ≠ EmptyString →
  ∀ ep request' e',
    auth_gated ep = true →
    session_token_of request' = inr (Some token) →
    serve ep request' e' (serve POST_auth_logout request e d).2
    = (401%Z, None, (serve POST_auth_logout request e d).2).
Proof.
  intros Hcookie Hne ep request' e' Hg Htoken.
  assert (Py.truthy (Some token) = true) as Htruthy.
  { simpl. destruct (String.eqb token EmptyString) eqn:E; [|reflexivity].
    apply String.eqb_eq in E. contradiction. }
  assert ((serve POST_auth_logout request e d).2
          = with_user_sessions
              (Mongo.delete_many (λ s, s_session_token s = token)) d) as ->.
  { unfold serve, run, route, logout, mbind, M_bind, bind.
    rewrite Hcookie, Htruthy. reflexivity. }
  apply (serve_no_live_session ep request' e' _ token Hg Htoken).
  intros s Hs Htok. cbn [with_user_sessions user_sessions] in Hs.
  unfold Mongo.delete_many in Hs.
  apply list_elem_of_filter in Hs as [Hne' _]. contradiction.
Qed.

Lemma logout_revokes_token_witness :
  serve GET_appointments (Demo.bearer "tok-alice") (Demo.env 7)
        (serve POST_auth_logout (Demo.with_cookie "tok-alice") (Demo.env 6)
               Demo.db_carol).2
  = (401%Z, None,
     (serve POST_auth_logout (Demo.with_cookie "tok-alice") (Demo.env 6)
            Demo.db_carol).2).
Proof.
  apply (logout_revokes_token _ _ _ "tok-alice").
  - vm_compute. reflexivity.
  - discriminate.
  - reflexivity.
  - vm_compute. reflexivity.
Defined.

(** ** Login, seen from the next request *)







(** ** Doctor profiles *)

Local Open Scope list_scope.

Section UpdateOne.
Context {A : Type} (P : A → Prop) `{Pdec : !∀ x, Decision (P x)} (f : A → A).

(** [update_one] rewrites the document [find_one] returns, where it is. *)
Lemma update_one_split (c : list A) (x : A) :
  Mongo.find_one P c = Some x →
  ∃ before after,
    c = before ++ x :: after
    ∧ (∀ y, y ∈ before → ¬ P y)
    ∧ Mongo.update_one P f c = before ++ f x :: after.
Proof.
  induction c as [|y r IH]; intros Hfind; [discriminate Hfind|].
  cbn [Mongo.update_one].
  destruct (decide (P y)) as [Hy|Hy].
  - exists [], r.
    assert (x = y) as ->.
    { unfold Mongo.find_one in Hfind. simpl in Hfind.
      destruct (decide (P y)); [|contradiction]. simpl in Hfind. congruence. }
    split; [reflexivity|]. split; [|reflexivity].
    intros z Hz. apply elem_of_nil in Hz. destruct Hz.
  - assert (Mongo.find_one P r = Some x) as Hr.
    { rewrite <- Hfind. symmetry.
      apply (find_one_app_r P [y] r).
      apply find_one_None. intros z Hz.
      apply list_elem_of_singleton in Hz as ->. exact Hy. }
    destruct (IH Hr) as (before & after & -> & Hbefore & ->).
    exists (y :: before), after.
    split; [reflexivity|]. split; [|reflexivity].
    intros z Hz. apply elem_of_cons in Hz as [->|Hz]; [exact Hy|].
    apply Hbefore. exact Hz.
Qed.


(** Whatever a projection [g] that [f] respects sees is unchanged. *)
Lemma fmap_update_one {B} (g : A → B) (c : list A) :
  (∀ x, g (f x) = g x) → g <$> Mongo.update_one P f c = g <$> c.
Proof.
  intros Hg. induction c as [|y r IH]; [reflexivity|].
  cbn [Mongo.update_one]. destruct (decide (P y)).
  - cbn [fmap list_fmap]. rewrite Hg. reflexivity.
  - cbn [fmap list_fmap]. f_equal. exact IH.
Qed.
End UpdateOne.








(** ** Availability and booking *)

Lemma serve_update_availability (request : Request) (e : Env) (d : DB)
  (user : User) (available : bool) :
  (run (require_doctor request) e d).1 = inr user →
  serve (PUT_doctors_availability available) request e d
  = (200%Z, Some (SuccessReply true),
     with_doctor_profiles
       (Mongo.update_one (λ p, d_user_id p = u_id user) (set_available available))
       d).
Proof.
  intros Hauth. destruct (require_doctor_grants _ _ _ _ Hauth) as [Hgate _].
  unfold serve, run, route, depends, mbind, M_bind, bind. rewrite Hgate.
  reflexivity.
Qed.

(** X10. Toggling availability rewrites one document: the first profile
    whose [user_id] is the caller's gets the requested flag, and every
    other profile, a later duplicate of the same doctor included, stays
    as it was, as do the other collections. *)
Theorem availability_sets_first_profile_only (request : Request) (e : Env)
  (d : DB) (user : User) (available : bool) (p : DoctorProfile) :
  (run (require_doctor request) e d).1 = inr user →
  Mongo.find_one (λ q, d_user_id q = u_id user) (doctor_profiles d) = Some p →
  ∃ before after,
    doctor_profiles d = before ++ p :: after
    ∧ (∀ q, q ∈ before → d_user_id q ≠ u_id user)
    ∧ serve (PUT_doctors_availability available) request e d
      = (200%Z, Some (SuccessReply true),
         mkDB (users d) (user_sessions d)
              (before ++ set_available available p :: after) (appointments d))
    ∧ d_available (set_available available p) = available
    ∧ profile_core (set_available available p) = profile_core p.
Proof.
  intros Hauth Hfind.
  destruct (update_one_split (λ q, d_user_id q = u_id user)
              (set_available available) _ _ Hfind)
    as (before & after & Hsplit & Hbefore & Hupd).
  exists before, after. split; [exact Hsplit|]. split; [exact Hbefore|].
  split; [|split; reflexivity].
  rewrite (serve_update_availability _ _ _ _ _ Hauth).
  unfold with_doctor_profiles. rewrite Hupd. reflexivity.
Qed.

Lemma availability_sets_first_profile_only_witness :
  ∃ p,
    serve (PUT_doctors_availability false) (Demo.bearer "tok-bob") (Demo.env 8)
          Demo.db_carol
    = (200%Z, Some (SuccessReply true),
       mkDB (users Demo.db_carol) (user_sessions Demo.db_carol)
            [set_available false p] (appointments Demo.db_carol))
    ∧ doctor_profiles Demo.db_carol = [p].
Proof.
  eexists.
  destruct (availability_sets_first_profile_only (Demo.bearer "tok-bob")
              (Demo.env 8) Demo.db_carol Demo.bob false _
              ltac:(vm_compute; reflexivity) ltac:(vm_compute; reflexivity))
    as (before & after & Hsplit & _ & Hserve & _).
  vm_compute in Hsplit.
  destruct before as [|q before]; simpl in Hsplit.
  - injection Hsplit as <-. split; [exact Hserve|]. vm_compute. reflexivity.
  - injection Hsplit as _ Hrest. destruct before; discriminate Hrest.
Defined.





(** ** Starting, listing and joining appointments *)

(** X12. Starting an appointment asks for a login and nothing more: any
    authenticated caller, party to the appointment or not, gets 200 and
    the room id, and the first appointment bearing the id has its status
    set to active whatever it was; its other fields and every other
    document are untouched.  An unknown id is a 404 that changes
    nothing. *)
Theorem start_needs_no_ownership (request : Request) (e : Env) (d : DB)
  (user : User) (appointment_id : string) :
  (run (require_auth request) e d).1 = inr user →
  (Mongo.find_one (λ a, a_id a = appointment_id) (appointments d) = None →
   serve (POST_appointments_start appointment_id) request e d
   = (404%Z, None, d))
  ∧ (∀ a, Mongo.find_one (λ a, a_id a = appointment_id) (appointments d)
          = Some a →
      ∃ before after,
        appointments d = before ++ a :: after
        ∧ (∀ b, b ∈ before → a_id b ≠ appointment_id)
        ∧ serve (POST_appointments_start appointment_id) request e d
          = (200%Z, Some (StartReply (a_video_room_id a) true),
             mkDB (users d) (user_sessions d) (doctor_profiles d)
                  (before ++ set_status "active" a :: after))
        ∧ appointment_core (set_status "active" a) = appointment_core a).
Proof.
  intros Hauth. split.
  - intros Hnone. unfold serve, run, route, depends, mbind, M_bind, bind.
    rewrite (require_auth_grants _ _ _ _ Hauth).
    unfold start_appointment, mbind, M_bind, bind, query. cbn [db].
    rewrite Hnone. reflexivity.
  - intros a Hfind.
    destruct (update_one_split (λ b, a_id b = appointment_id)
                (set_status "active") _ _ Hfind)
      as (before & after & Hsplit & Hbefore & Hupd).
    exists before, after. split; [exact Hsplit|]. split; [exact Hbefore|].
    split; [|reflexivity].
    unfold serve, run, route, depends, mbind, M_bind, bind.
    rewrite (require_auth_grants _ _ _ _ Hauth).
    unfold start_appointment, mbind, M_bind, bind, query, execute. cbn [db].
    rewrite Hfind. cbn [db]. unfold with_appointments. rewrite Hupd.
    reflexivity.
Qed.

(** Carol, who is neither the patient nor the doctor, starts Alice's
    appointment with Bob. *)
Lemma start_needs_no_ownership_witness :
  ∃ a,
    appointments Demo.db_carol = [a]
    ∧ a_patient_id a ≠ u_id Demo.carol
    ∧ a_doctor_id a ≠ u_id Demo.carol
    ∧ serve (POST_appointments_start Demo.booked_appointment_id)
            (Demo.bearer "tok-carol") (Demo.env 6) Demo.db_carol
      = (200%Z, Some (StartReply (a_video_room_id a) true),
         mkDB (users Demo.db_carol) (user_sessions Demo.db_carol)
              (doctor_profiles Demo.db_carol) [set_status "active" a]).
Proof.
  eexists. split; [vm_compute; reflexivity|].
  split; [discriminate|]. split; [discriminate|].
  destruct (proj2 (start_needs_no_ownership (Demo.bearer "tok-carol") (Demo.env 6)
                     Demo.db_carol Demo.carol Demo.booked_appointment_id
                     ltac:(vm_compute; reflexivity))
              _ ltac:(vm_compute; reflexivity))
    as (before & after & Hsplit & _ & Hserve & _).
  vm_compute in Hsplit.
  destruct before as [|b before]; simpl in Hsplit.
  - injection Hsplit as <-. exact Hserve.
  - injection Hsplit as _ Hrest. destruct before; discriminate Hrest.
Defined.

(** X13. A caller whose role is not doctor is shown exactly the
    appointments whose [patient_id] is the caller's user id, in store
    order, each with the name and picture of the doctor's user and the
    specialization of the profile when both documents exist and with no
    [doctor] key otherwise. *)
Theorem patient_listing (request : Request) (e : Env) (d : DB) (user : User) :
  (run (require_auth request) e d).1 = inr user →
  u_role user ≠ "doctor" →
  ∃ views,
    serve GET_appointments request e d
    = (200%Z, Some (AppointmentsReply views), d)
    ∧ av_appointment <$> views
      = filter (λ a, a_patient_id a = u_id user) (appointments d)
    ∧ ∀ v, v ∈ views →
           av_patient v = None
           ∧ av_doctor v = doctor_info d (av_appointment v).
Proof.
  intros Hauth Hrole. rewrite (serve_listing _ _ _ _ Hauth).
  destruct (decide (u_role user = "doctor")) as [|_]; [contradiction|].
  eexists. split; [reflexivity|]. split.
  - rewrite <- list_fmap_compose. apply list_fmap_id.
  - intros v Hv. apply list_elem_of_fmap in Hv as (a & -> & _).
    split; reflexivity.
Qed.

Lemma patient_listing_witness :
  ∃ views,
    serve GET_appointments (Demo.bearer "tok-alice") (Demo.env 6) Demo.db_carol
    = (200%Z, Some (AppointmentsReply views), Demo.db_carol)
    ∧ av_appointment <$> views = appointments Demo.db_carol.
Proof.
  destruct (patient_listing (Demo.bearer "tok-alice") (Demo.env 6) Demo.db_carol
              Demo.alice ltac:(vm_compute; reflexivity) ltac:(discriminate))
    as (views & Hserve & Hviews & _).
  exists views. split; [exact Hserve|]. rewrite Hviews. vm_compute. reflexivity.
Defined.

(** X14. Who may join: an authenticated caller gets the appointment
    document exactly when the first appointment bearing the id has the
    caller's user id as [patient_id] or as [doctor_id]; the role is not
    looked at, and nothing is written. *)
Theorem join_access_rule (request : Request) (e : Env) (d : DB) (user : User)
  (appointment_id : string) :
  (run (require_auth request) e d).1 = inr user →
  (∀ a, Mongo.find_one (λ a, a_id a = appointment_id) (appointments d) = Some a →
        (a_patient_id a = u_id user ∨ a_doctor_id a = u_id user) →
        serve (GET_appointments_join appointment_id) request e d
        = (200%Z, Some (AppointmentReply a), d))
  ∧ (∀ reply, serve (GET_appointments_join appointment_id) request e d
              = (200%Z, Some reply, d) →
       ∃ a, reply = AppointmentReply a
            ∧ Mongo.find_one (λ a, a_id a = appointment_id) (appointments d)
              = Some a
            ∧ (a_patient_id a = u_id user ∨ a_doctor_id a = u_id user)).
Proof.
  intros Hauth. rewrite (serve_join _ _ _ _ _ Hauth). split.
  - intros a -> Hparty.
    destruct (decide _) as [[Hp Hd]|_]; [|reflexivity].
    destruct Hparty; contradiction.
  - intros reply.
    destruct (Mongo.find_one _ (appointments d)) as [a|]; [|discriminate].
    destruct (decide _) as [|Hparty]; [discriminate|].
    intros [= <-]. exists a. split; [reflexivity|]. split; [reflexivity|].
    destruct (decide (a_patient_id a = u_id user)) as [|Hp]; [left; assumption|].
    destruct (decide (a_doctor_id a = u_id user)) as [|Hd]; [right; assumption|].
    destruct Hparty. split; assumption.
Qed.

Lemma join_access_rule_witness :
  ∃ a, serve (GET_appointments_join Demo.booked_appointment_id)
             (Demo.bearer "tok-alice") (Demo.env 6) Demo.db_carol
       = (200%Z, Some (AppointmentReply a), Demo.db_carol).
Proof.
  eexists.
  apply (proj1 (join_access_rule (Demo.bearer "tok-alice") (Demo.env 6)
                  Demo.db_carol Demo.alice Demo.booked_appointment_id
                  ltac:(vm_compute; reflexivity))).
  - vm_compute. reflexivity.
  - left. reflexivity.
Defined.




(** ** Seeding a store that knows none of the sample addresses *)

Lemma init_sample_doctor_fresh (doctor_data : SampleDoctor) (e : Env) (s : St) :
  (∀ v, v ∈ users (db s) → u_email v ≠ sd_email doctor_data) →
  init_sample_doctor doctor_data e s
  = let user :=
      mkUser (Py.uuid_str (Py.uuid4_int (urandom e (uuid_draws s))))
        (sd_email doctor_data) (sd_name doctor_data) (sd_picture doctor_data)
        "doctor" (utc_clock e (clock_reads s)) in
    let profile :=
      mkDoctorProfile (Py.uuid_str (Py.uuid4_int (urandom e (S (uuid_draws s)))))
        (u_id user) (sd_specialization doctor_data)
        (sd_experience_years doctor_data) (sd_license_number doctor_data)
        (sd_bio doctor_data) (sd_consultation_fee doctor_data) true
        (utc_clock e (S (clock_reads s))) in
    (inr tt,
     mkSt (mkDB (users (db s) ++ [user]) (user_sessions (db s))
                (doctor_profiles (db s) ++ [profile]) (appointments (db s)))
          (S (S (uuid_draws s))) (S (S (clock_reads s))) (response_cookies s)).
Proof.
  intros Hfree.
  unfold init_sample_doctor, mbind, M_bind, bind, query.
  rewrite (proj2 (find_one_None (λ v, u_email v = sd_email doctor_data)
                    (users (db s))) Hfree).
  reflexivity.
Qed.

(** What the table says of a user and of a profile. *)
Lemma seeding_loop_fresh (l : list SampleDoctor) (e : Env) (s : St) :
  NoDup (sd_email <$> l) →
  (∀ sd v, sd ∈ l → v ∈ users (db s) → u_email v ≠ sd_email sd) →
  ∃ s' new_users new_profiles,
    for_ l init_sample_doctor e s = (inr tt, s')
    ∧ db s' = mkDB (users (db s) ++ new_users) (user_sessions (db s))
                   (doctor_profiles (db s) ++ new_profiles)
                   (appointments (db s))
    ∧ (λ u, (u_email u, u_name u, u_picture u, u_role u)) <$> new_users
      = (λ sd, (sd_email sd, sd_name sd, sd_picture sd, "doctor")) <$> l
    ∧ (λ p, (d_specialization p, d_experience_years p, d_license_number p,
             d_bio p, d_consultation_fee p, d_available p)) <$> new_profiles
      = (λ sd, (sd_specialization sd, sd_experience_years sd,
                sd_license_number sd, sd_bio sd, sd_consultation_fee sd, true))
          <$> l
    ∧ d_user_id <$> new_profiles = u_id <$> new_users.
Proof.
  revert s. induction l as [|sd r IH]; intros s Hnd Hfree.
  - exists s, [], []. simpl. rewrite !app_nil_r.
    split; [reflexivity|].
    split; [destruct s as [[] ? ? ?]; reflexivity|].
    repeat split.
  - cbn [for_]. unfold mbind, M_bind, bind.
    rewrite init_sample_doctor_fresh
      by (intros v Hv; apply (Hfree sd v); [left|exact Hv]).
    cbv beta iota zeta.
    match goal with |- context [for_ r init_sample_doctor e ?s1] =>
      destruct (IH s1) as (s' & nu & np & Hrun & Hdb & Hu & Hp & Hlink)
    end.
    { apply NoDup_cons in Hnd as [_ Hnd]. exact Hnd. }
    { intros sd' v Hsd' Hv. cbn [db users] in Hv.
      apply elem_of_app in Hv as [Hv|Hv].
      - apply (Hfree sd' v); [right; exact Hsd'|exact Hv].
      - apply list_elem_of_singleton in Hv as ->. cbn [u_email].
        intros Heq. apply NoDup_cons in Hnd as [Hnotin _].
        apply Hnotin. rewrite Heq. apply list_elem_of_fmap.
        exists sd'. split; [reflexivity|exact Hsd']. }
    cbn [db users user_sessions doctor_profiles appointments] in Hdb.
    rewrite Hrun. eexists s', (_ :: nu), (_ :: np).
    split; [reflexivity|].
    split; [rewrite Hdb, <- !app_assoc; reflexivity|].
    cbn [fmap list_fmap]. rewrite <- Hu, <- Hp, <- Hlink. repeat split.
Qed.

(** X16. Seeding a store in which none of the three sample addresses has
    a user answers success and appends exactly three users and three
    profiles, in the order of the table: each user has the table's
    address, name and picture and the role doctor, each profile has the
    table's professional data, is available, and points at its user.
    Sessions and appointments are untouched. *)
Theorem seeding_fresh_store (request : Request) (e : Env) (d : DB) :
  (∀ sd v, sd ∈ sample_doctors → v ∈ users d → u_email v ≠ sd_email sd) →
  ∃ new_users new_profiles,
    serve POST_admin_init_sample_doctors request e d
    = (200%Z, Some (MessageReply "Sample doctors initialized" true),
       mkDB (users d ++ new_users) (user_sessions d)
            (doctor_profiles d ++ new_profiles) (appointments d))
    ∧ length new_users = 3%nat
    ∧ length new_profiles = 3%nat
    ∧ (λ u, (u_email u, u_name u, u_picture u, u_role u)) <$> new_users
      = (λ sd, (sd_email sd, sd_name sd, sd_picture sd, "doctor"))
          <$> sample_doctors
    ∧ (λ p, (d_specialization p, d_experience_years p, d_license_number p,
             d_bio p, d_consultation_fee p, d_available p)) <$> new_profiles
      = (λ sd, (sd_specialization sd, sd_experience_years sd,
                sd_license_number sd, sd_bio sd, sd_consultation_fee sd, true))
          <$> sample_doctors
    ∧ d_user_id <$> new_profiles = u_id <$> new_users.
Proof.
  intros Hfree.
  destruct (seeding_loop_fresh sample_doctors e (mkSt d 0 0 []))
    as (s' & nu & np & Hrun & Hdb & Hu & Hp & Hlink).
  { cbn [sample_doctors fmap list_fmap sd_email].
    repeat (apply NoDup_cons; split;
            [intros Hin; repeat (apply elem_of_cons in Hin as [Hin|Hin];
                                 [discriminate Hin|]);
             apply elem_of_nil in Hin; exact Hin|]).
    apply NoDup_nil. exact I. }
  { exact Hfree. }
  exists nu, np. split.
  { unfold serve, run, route, init_sample_doctors, mbind, M_bind, bind.
    rewrite Hrun. cbn [db] in Hdb. simpl. rewrite Hdb. reflexivity. }
  split; [rewrite <- (length_fmap (λ u, (u_email u, u_name u, u_picture u, u_role u))),
            Hu; reflexivity|].
  split; [rewrite <- (length_fmap d_user_id), Hlink, length_fmap,
            <- (length_fmap (λ u, (u_email u, u_name u, u_picture u, u_role u))),
            Hu; reflexivity|].
  split; [exact Hu|]. split; [exact Hp|exact Hlink].
Qed.

Lemma seeding_fresh_store_witness :
  ∃ new_users new_profiles,
    serve POST_admin_init_sample_doctors Demo.anonymous (Demo.env 7) Demo.db_carol
    = (200%Z, Some (MessageReply "Sample doctors initialized" true),
       mkDB (users Demo.db_carol ++ new_users) (user_sessions Demo.db_carol)
            (doctor_profiles Demo.db_carol ++ new_profiles)
            (appointments Demo.db_carol))
    ∧ length new_users = 3%nat
    ∧ length new_profiles = 3%nat.
Proof.
  destruct (seeding_fresh_store Demo.anonymous (Demo.env 7) Demo.db_carol)
    as (nu & np & Hserve & Hnu & Hnp & _).
  { intros sd v Hsd Hv Heq. in_store Hv; in_store Hsd; discriminate Heq. }
  exists nu, np. split; [exact Hserve|]. split; assumption.
Defined.

(** ** What no route does *)

Lemma keeps_documents_refl (d : DB) : keeps_documents d d.
Proof. repeat split; reflexivity. Qed.

(** Stores that agree on the three cores, up to documents added at the
    end, are related. *)
Lemma keeps_documents_intro (d d' : DB) (nu : list User)
  (np : list DoctorProfile) (na : list Appointment) (us : list User)
  (ps : list DoctorProfile) (aps : list Appointment) :
  user_core <$> us = user_core <$> users d →
  profile_core <$> ps = profile_core <$> doctor_profiles d →
  appointment_core <$> aps = appointment_core <$> appointments d →
  users d' = us ++ nu →
  doctor_profiles d' = ps ++ np →
  appointments d' = aps ++ na →
  keeps_documents d d'.
Proof.
  intros Hu Hp Ha Hu' Hp' Ha'. unfold keeps_documents.
  rewrite Hu', Hp', Ha', !fmap_app, Hu, Hp, Ha.
  repeat split; apply prefix_app_r; reflexivity.
Qed.

Ltac store_fields :=
  cbn [db users user_sessions doctor_profiles appointments with_users
       with_user_sessions with_doctor_profiles with_appointments fst snd
       mret M_ret ret];
  unfold Mongo.insert_one.

Ltac same_documents_with nu np na :=
  eapply (keeps_documents_intro _ _ nu np na);
  [ | |
  | store_fields; rewrite ?app_nil_r; reflexivity
  | store_fields; rewrite ?app_nil_r; reflexivity
  | store_fields; rewrite ?app_nil_r; reflexivity ];
  first [ reflexivity | apply fmap_update_one; intros ?; reflexivity ].

Ltac same_documents :=
  store_fields;
  first [ apply keeps_documents_refl
        | same_documents_with (@nil User) (@nil DoctorProfile) (@nil Appointment)
        | eapply (keeps_documents_intro _ _ [] [] [_]); 
          [ | | | store_fields; rewrite ?app_nil_r; reflexivity ..];
          first [ reflexivity | apply fmap_update_one; intros ?; reflexivity ]
        | eapply (keeps_documents_intro _ _ [] [_] []);
          [ | | | store_fields; rewrite ?app_nil_r; reflexivity ..];
          first [ reflexivity | apply fmap_update_one; intros ?; reflexivity ]
        | eapply (keeps_documents_intro _ _ [_] [] []);
          [ | | | store_fields; rewrite ?app_nil_r; reflexivity ..];
          first [ reflexivity | apply fmap_update_one; intros ?; reflexivity ] ].

(** The login route, whatever its outcome. *)
Lemma process_session_effect (request : Request) (e : Env) (s : St) :
  keeps_documents (db s) (db (process_session request e s).2)
  ∧ doctor_profiles (db (process_session request e s).2) = doctor_profiles (db s)
  ∧ appointments (db (process_session request e s).2) = appointments (db s).
Proof.
  unfold process_session, try_except, request_json, get_session_data,
    response_json, getitem.
  unfold mbind, M_bind, bind.
  destruct (json_body request) as [body|];
    [|split; [same_documents|split; reflexivity]].
  cbn [mret M_ret ret].
  destruct (negb (json_truthy (body !! "session_id")));
    [split; [same_documents|split; reflexivity]|].
  destruct (body !! "session_id") as [[| | |sid]|];
    try (split; [same_documents|split; reflexivity]).
  destruct (identity_verifier e sid) as [|c j];
    [split; [same_documents|split; reflexivity]|].
  cbn [fst snd].
  destruct (decide (c ≠ 200%Z));
    [split; [same_documents|split; reflexivity]|].
  destruct j as [data|]; [|split; [same_documents|split; reflexivity]].
  cbn [ret].
  destruct (data !! "email") as [email|];
    [|split; [same_documents|split; reflexivity]].
  cbn [ret query].
  destruct (Mongo.find_one _ (users (db s))) as [u|].
  - cbn [ret].
    destruct (data !! "session_token") as [token|];
      split; solve [same_documents | split; reflexivity].
  - cbn [uuid4 ret].
    destruct (data !! "name") as [name|];
      [|split; [same_documents|split; reflexivity]].
    destruct (data !! "picture") as [picture|];
      [|split; [same_documents|split; reflexivity]].
    cbn [utcnow execute ret db uuid_draws clock_reads response_cookies].
    destruct (data !! "session_token") as [token|];
      split; solve [same_documents | split; reflexivity].
Qed.

(** A route behind a dependency, for a relation the gate cannot break. *)
Lemma depends_effect (R : DB → DB → Prop) (doctor : bool)
  (handler : User → M Reply) (request : Request) (e : Env) (s : St) :
  R (db s) (db s) →
  (∀ u s1, db s1 = db s → R (db s) (db (handler u e s1).2)) →
  R (db s)
    (db (depends (if doctor then require_doctor else require_auth) handler
                 request e s).2).
Proof.
  intros Hrefl Hh. unfold depends, mbind, M_bind, bind.
  destruct (require_auth_frame request e s) as (r & k & Ha).
  destruct doctor.
  - rewrite require_doctor_unfold, Ha.
    destruct r as [x|u]; [exact Hrefl|].
    destruct (decide (u_role u ≠ "doctor")); [exact Hrefl|].
    apply Hh. reflexivity.
  - rewrite Ha. destruct r as [x|u]; [exact Hrefl|].
    apply Hh. reflexivity.
Qed.

(** Every route function behind the gate keeps the documents and the
    sessions. *)
Lemma gated_handlers_effect (ep : Endpoint) (request : Request) (e : Env)
  (s : St) :
  auth_gated ep = true →
  keeps_documents (db s) (db (route ep request e s).2)
  ∧ user_sessions (db (route ep request e s).2) = user_sessions (db s).
Proof.
  intros Hg.
  destruct ep; try discriminate Hg; cbn [route];
    match goal with
    | |- context [depends require_auth ?h] =>
        apply (depends_effect
                 (λ d d', keeps_documents d d' ∧ user_sessions d' = user_sessions d)
                 false h)
    | |- context [depends require_doctor ?h] =>
        apply (depends_effect
                 (λ d d', keeps_documents d d' ∧ user_sessions d' = user_sessions d)
                 true h)
    end;
    try (split; [apply keeps_documents_refl|reflexivity]);
    intros u s1 Hs1; rewrite <- Hs1.
  - (* /auth/me *) split; [apply keeps_documents_refl|reflexivity].
  - (* POST /doctors/profile *)
    unfold create_doctor_profile, mbind, M_bind, bind, execute, uuid4, utcnow.
    split; [same_documents|reflexivity].
  - (* GET /doctors/profile *)
    unfold get_doctor_profile, mbind, M_bind, bind, query.
    destruct (Mongo.find_one _ _);
      (split; [apply keeps_documents_refl|reflexivity]).
  - (* PUT /doctors/availability *)
    unfold update_availability, mbind, M_bind, bind, execute.
    split; [same_documents|reflexivity].
  - (* POST /appointments *)
    unfold create_appointment, mbind, M_bind, bind, query, execute, uuid4, utcnow.
    destruct (Mongo.find_one _ _);
      (split; [same_documents|reflexivity]).
  - (* GET /appointments *)
    rewrite get_user_appointments_spec.
    split; [apply keeps_documents_refl|reflexivity].
  - (* join *)
    unfold join_appointment, mbind, M_bind, bind, query.
    destruct (Mongo.find_one _ _) as [a|];
      [destruct (decide _)|];
      (split; [apply keeps_documents_refl|reflexivity]).
  - (* start *)
    unfold start_appointment, mbind, M_bind, bind, query, execute.
    destruct (Mongo.find_one _ _) as [a|];
      (split; [same_documents|reflexivity]).
Qed.

Lemma route_effect (ep : Endpoint) (request : Request) (e : Env) (s : St) :
  keeps_documents (db s) (db (route ep request e s).2)
  ∧ (ep ≠ POST_auth_session → ep ≠ POST_auth_logout →
     user_sessions (db (route ep request e s).2) = user_sessions (db s)).
Proof.
  destruct (auth_gated ep) eqn:Hg.
  { destruct (gated_handlers_effect ep request e s Hg) as [Hk Hs].
    split; [exact Hk|]. intros _ _. exact Hs. }
  destruct ep; try discriminate Hg; cbn [route].
  - (* login *)
    split; [apply process_session_effect|]. intros Hne. destruct Hne. reflexivity.
  - (* logout *)
    split; [|intros _ Hne; destruct Hne; reflexivity].
    unfold logout, mbind, M_bind, bind, execute, cookie_op.
    destruct (cookies request !! "session_token") as [token|];
      [destruct (Py.truthy (Some token))|]; same_documents.
  - (* GET /doctors *)
    rewrite get_available_doctors_spec.
    split; [apply keeps_documents_refl|]. intros _ _. reflexivity.
  - (* seeding *)
    unfold init_sample_doctors, mbind, M_bind, bind.
    destruct (seeding_loop sample_doctors e s)
      as (s' & nu & np & Hrun & Hdb & _).
    rewrite Hrun. cbn [snd mret M_ret ret]. rewrite Hdb.
    split; [|intros _ _; reflexivity].
    eapply (keeps_documents_intro _ _ nu np []);
      rewrite ?app_nil_r; reflexivity.
Qed.

(** X17. No route deletes or rewrites a user, a profile or an
    appointment: whatever the route, the request and the outcome, every
    such document of the store before is still there afterwards, at the
    same place, with the same fields except for a user's role, a
    profile's availability flag and an appointment's status; in
    particular an appointment never changes its room id, its patient or
    its doctor.  New documents are only ever added at the end. *)
Theorem routes_keep_documents (ep : Endpoint) (request : Request) (e : Env)
  (d : DB) :
  keeps_documents d (serve ep request e d).2.
Proof.
  unfold serve, run.
  pose proof (proj1 (route_effect ep request e (mkSt d 0 0 []))) as Hk.
  destruct (route ep request e (mkSt d 0 0 [])) as [r s']. exact Hk.
Qed.

(** X18. Only login and logout write sessions: every other route leaves
    the session collection exactly as it found it, so no other call can
    log anyone in or out. *)
Theorem only_login_and_logout_write_sessions (ep : Endpoint) (request : Request)
  (e : Env) (d : DB) :
  ep ≠ POST_auth_session → ep ≠ POST_auth_logout →
  user_sessions (serve ep request e d).2 = user_sessions d.
Proof.
  intros Hlogin Hlogout. unfold serve, run.
  pose proof (proj2 (route_effect ep request e (mkSt d 0 0 [])) Hlogin Hlogout)
    as Hs.
  destruct (route ep request e (mkSt d 0 0 [])) as [r s']. exact Hs.
Qed.

Lemma only_login_and_logout_write_sessions_witness :
  user_sessions
    (serve (POST_doctors_profile Demo.bob_profile_data) (Demo.bearer "tok-carol")
           (Demo.env 12) Demo.db_carol).2
  = user_sessions Demo.db_carol.
Proof.
  apply only_login_and_logout_write_sessions; discriminate.
Defined.

(** ** The life of a session *)


